(** * Simpleres customer ordering client: cart, checkout and order tracking

    A shallow embedding of the TypeScript sources

    - [contexts/OrderContext]  (the session context and the cart operations),
    - [components/Cart]        ([handleCheckout]),
    - [components/Payment]     ([handleInitiatePayment], [handleUploadReceipt]),
    - [components/OrderStatus] (the polling effect and the progress checklist),
    - [components/Menu]        ([cartItemCount]),
    - [types/api]              (the records exchanged with the REST service).

    JavaScript values are modelled as the language has them: a [number] is an
    IEEE-754 binary64 value (Rocq's primitive [float], same format and same
    round-to-nearest-even operations), a string is a sequence of UTF-16 code
    units, an optional field is an [option].  React state is passed
    explicitly: an updater [prev => next] is a function on the state, an event
    handler is a computation in a small state/exception/log monad. *)

From Stdlib Require Import List Bool Arith ZArith NArith QArith Lia.
From Stdlib Require Import Ascii String.
From Stdlib Require Import Floats.
Import ListNotations.

Close Scope Q_scope.
Open Scope nat_scope.

(* ================================================================== *)
(** ** JavaScript values *)

Module JS.

(** A JS string: its UTF-16 code units. *)
Definition jsstring := list N.

(** A string literal of the source (all of them are ASCII). *)
Definition lit (s : string) : jsstring :=
  map N_of_ascii (list_ascii_of_string s).
Arguments lit s : simpl never.

(** [a === b] on strings. *)
Fixpoint eqb (a b : jsstring) : bool :=
  match a, b with
  | [], [] => true
  | x :: a', y :: b' => N.eqb x y && eqb a' b'
  | _, _ => false
  end.

(** ToBoolean on a string: only the empty string is falsy. *)
Definition truthy (s : jsstring) : bool :=
  match s with [] => false | _ :: _ => true end.

(** ToBoolean on [string | null | undefined]. *)
Definition truthy_opt (o : option jsstring) : bool :=
  match o with Some s => truthy s | None => false end.

(** [a || b] on strings. *)
Definition or_else (a b : jsstring) : jsstring :=
  if truthy a then a else b.

(** ECMAScript WhiteSpace and LineTerminator code points, the characters
    [String.prototype.trim] strips: TAB, LF, VT, FF, CR, SP, NBSP, the
    Unicode space separators (category Zs), LS, PS and the BOM. *)
Definition is_whitespace (c : N) : bool :=
  (N.leb 9 c && N.leb c 13)        (* U+0009 .. U+000D *)
  || N.eqb c 32                    (* U+0020 *)
  || N.eqb c 160                   (* U+00A0 *)
  || N.eqb c 5760                  (* U+1680 *)
  || (N.leb 8192 c && N.leb c 8202) (* U+2000 .. U+200A *)
  || N.eqb c 8232 || N.eqb c 8233  (* U+2028, U+2029 *)
  || N.eqb c 8239                  (* U+202F *)
  || N.eqb c 8287                  (* U+205F *)
  || N.eqb c 12288                 (* U+3000 *)
  || N.eqb c 65279.                (* U+FEFF *)

Fixpoint trimStart (s : jsstring) : jsstring :=
  match s with
  | [] => []
  | c :: s' => if is_whitespace c then trimStart s' else s
  end.

Definition trimEnd (s : jsstring) : jsstring :=
  rev (trimStart (rev s)).

(** [s.trim()] *)
Definition trim (s : jsstring) : jsstring :=
  trimEnd (trimStart s).

(** A JS number: IEEE-754 binary64. *)
Definition number := float.

(** The exact rational value of a finite number; [None] for NaN and the
    infinities.  Every finite binary64 value is [m * 2^e]. *)
Definition exact_value (x : number) : option Q :=
  match Prim2SF x with
  | S754_zero _ => Some 0%Q
  | S754_finite sign m e =>
      let mz := if sign then Z.neg m else Z.pos m in
      Some (match e with
            | Z0 => inject_Z mz
            | Zpos p => inject_Z (mz * 2 ^ Zpos p)
            | Zneg p => Qmake mz (2 ^ p)
            end)
  | S754_infinity _ => None
  | S754_nan => None
  end.

End JS.

Import JS.

(* ================================================================== *)
(** ** Records of [types/api] *)

Module Table.
Record t := mk {
  id : jsstring;
  tableNumber : jsstring;
  tableName : jsstring;
  capacity : number;
  location : jsstring
  (* the optional fields qrCodeUrl, qrCodeData, orderWebsiteUrl, isActive,
     createdAt, updatedAt are never read by the client *)
}.
End Table.

Module MenuItem.
Record t := mk {
  id : jsstring;
  name : jsstring;
  description : jsstring;
  price : number;
  imageUrl : jsstring;
  isAvailable : bool;
  preparationTime : number;
  categoryId : jsstring
}.
End MenuItem.

(** [type OrderStatus] *)
Inductive OrderStatus :=
| pending | accepted | rejected | preparing | ready | completed.

(** [type PaymentMethod] *)
Inductive PaymentMethod := cash | pos | transfer.

(** [type PaymentStatus] *)
Inductive PaymentStatus := payment_pending | payment_completed | payment_failed.

Module OrderItem.
Record t := mk {
  id : jsstring;
  menuItemId : jsstring;
  quantity : number;
  price : number;
  subtotal : number;
  specialInstructions : option jsstring
  (* the optional menuItem snapshot is only rendered *)
}.
End OrderItem.

Module Order.
Record t := mk {
  id : jsstring;
  orderNumber : jsstring;
  tableId : jsstring;
  status : OrderStatus;
  totalAmount : number;
  paymentMethod : jsstring;
  paymentStatus : PaymentStatus;
  specialInstructions : option jsstring;
  items : list OrderItem.t;
  createdAt : jsstring;
  updatedAt : jsstring
}.
End Order.

Module CreateOrderItem.
Record t := mk {
  menuItemId : jsstring;
  quantity : number;
  specialInstructions : option jsstring
}.
End CreateOrderItem.

Module CreateOrderRequest.
Record t := mk {
  tableId : jsstring;
  items : list CreateOrderItem.t;
  paymentMethod : PaymentMethod;
  specialInstructions : option jsstring
}.
End CreateOrderRequest.

Module PaymentMethodInfo.
Record t := mk {
  id : jsstring;
  type : PaymentMethod;
  name : jsstring;
  isActive : bool;
  bankName : option jsstring;
  accountNumber : option jsstring;
  accountName : option jsstring;
  createdAt : jsstring
}.
End PaymentMethodInfo.

Module Payment.
Record t := mk {
  id : jsstring;
  orderId : jsstring;
  paymentMethod : jsstring;
  status : PaymentStatus;
  amount : number;
  receiptImageUrl : option jsstring;
  createdAt : jsstring;
  updatedAt : jsstring
}.
End Payment.

Module InitiatePaymentRequest.
Record t := mk {
  orderId : jsstring;
  paymentMethod : PaymentMethod
}.
End InitiatePaymentRequest.

Module UploadReceiptRequest.
Record t := mk {
  paymentId : jsstring;
  receiptUrl : jsstring
}.
End UploadReceiptRequest.

(* ================================================================== *)
(** ** The session context ([OrderProvider]) and its cart operations *)

Module CartItem.
Record t := mk {
  menuItem : MenuItem.t;
  quantity : number;
  specialInstructions : option jsstring
}.

(** The key of a line: [ci.menuItem.id]. *)
Definition itemId (ci : t) : jsstring := MenuItem.id (menuItem ci).
End CartItem.

Module OrderContext.

Record State := mk {
  table : option Table.t;
  cartItems : list CartItem.t;
  currentOrder : option Order.t;
  paymentMethods : list PaymentMethodInfo.t;
  selectedPaymentMethod : option PaymentMethodInfo.t
}.

(** The five [useState] initial values. *)
Definition initial : State := mk None [] None [] None.

(** The cart operations are the updaters handed to [setCartItems]: functions
    from the previous cart to the next one. *)

(** [addToCart(item, quantity)] *)
Definition addToCart (item : MenuItem.t) (quantity : number)
  (prev : list CartItem.t) : list CartItem.t :=
  match find (fun ci => JS.eqb (CartItem.itemId ci) (MenuItem.id item)) prev with
  | Some _ =>
      map (fun ci =>
             if JS.eqb (CartItem.itemId ci) (MenuItem.id item)
             then CartItem.mk (CartItem.menuItem ci)
                              (CartItem.quantity ci + quantity)%float
                              (CartItem.specialInstructions ci)
             else ci) prev
  | None => prev ++ [CartItem.mk item quantity None]
  end.

(** [addToCart(item)]: the parameter's default value is 1. *)
Definition addToCart_default (item : MenuItem.t) : list CartItem.t -> list CartItem.t :=
  addToCart item 1%float.

(** [removeFromCart(itemId)] *)
Definition removeFromCart (itemId : jsstring) (prev : list CartItem.t) : list CartItem.t :=
  filter (fun ci => negb (JS.eqb (CartItem.itemId ci) itemId)) prev.

(** [updateCartItemQuantity(itemId, quantity)] *)
Definition updateCartItemQuantity (itemId : jsstring) (quantity : number)
  (prev : list CartItem.t) : list CartItem.t :=
  if (quantity <=? 0)%float then removeFromCart itemId prev
  else
    map (fun ci =>
           if JS.eqb (CartItem.itemId ci) itemId
           then CartItem.mk (CartItem.menuItem ci) quantity
                            (CartItem.specialInstructions ci)
           else ci) prev.

(** [updateCartItemInstructions(itemId, instructions)] *)
Definition updateCartItemInstructions (itemId : jsstring) (instructions : jsstring)
  (prev : list CartItem.t) : list CartItem.t :=
  map (fun ci =>
         if JS.eqb (CartItem.itemId ci) itemId
         then CartItem.mk (CartItem.menuItem ci) (CartItem.quantity ci)
                          (Some instructions)
         else ci) prev.

(** [clearCart()] *)
Definition clearCart (prev : list CartItem.t) : list CartItem.t := [].

(** [getCartTotal()]: [cartItems.reduce((total, item) => total +
    item.menuItem.price * item.quantity, 0)]. *)
Definition getCartTotal (cartItems : list CartItem.t) : number :=
  fold_left
    (fun total item =>
       (total + MenuItem.price (CartItem.menuItem item) * CartItem.quantity item)%float)
    cartItems 0%float.

(** [cartItemCount] of the menu page:
    [cartItems.reduce((sum, item) => sum + item.quantity, 0)]. *)
Definition cartItemCount (cartItems : list CartItem.t) : number :=
  fold_left (fun sum item => (sum + CartItem.quantity item)%float) cartItems 0%float.

End OrderContext.

(** A call of the cart's public interface, and sequences of them applied to
    a cart (React applies queued updaters in order). *)
Inductive CartOp :=
| OpAdd (item : MenuItem.t) (quantity : number)
| OpSetQuantity (itemId : jsstring) (quantity : number)
| OpRemove (itemId : jsstring).

Definition apply_op (op : CartOp) (cart : list CartItem.t) : list CartItem.t :=
  match op with
  | OpAdd item q => OrderContext.addToCart item q cart
  | OpSetQuantity i q => OrderContext.updateCartItemQuantity i q cart
  | OpRemove i => OrderContext.removeFromCart i cart
  end.

Definition apply_ops (ops : list CartOp) (cart : list CartItem.t) : list CartItem.t :=
  fold_left (fun c op => apply_op op c) ops cart.

(** The item ids of a cart, in line order. *)
Definition cart_ids (cart : list CartItem.t) : list jsstring :=
  map CartItem.itemId cart.

(* ================================================================== *)
(** ** The REST collaborator ([services/api]) and handler effects *)

(** What a rejected promise or a [throw] carries; handlers only read
    [err.message]. *)
Inductive Thrown :=
| ApiError (statusCode : N) (message : jsstring) (error : option jsstring)
| TypeError (message : jsstring).

Definition message (e : Thrown) : jsstring :=
  match e with
  | ApiError _ m _ => m
  | TypeError m => m
  end.

(** The settled value of an awaited promise. *)
Inductive Settled (A : Type) :=
| Resolved (a : A)
| Rejected (e : Thrown).
Arguments Resolved {A} a.
Arguments Rejected {A} e.

(** The collaborator as seen during one handler run: what each endpoint
    answers. *)
Record Api := {
  getPaymentMethods : Settled (list PaymentMethodInfo.t);
  createOrder : CreateOrderRequest.t -> Settled Order.t;
  getOrderById : jsstring -> Settled Order.t;
  initiatePayment : InitiatePaymentRequest.t -> Settled Payment.t;
  uploadTransferReceipt : UploadReceiptRequest.t -> Settled Payment.t
}.

(** Observable effects of a handler: requests sent to the collaborator,
    navigation, and the two session-context mutations of checkout. *)
Inductive Event :=
| CallGetPaymentMethods
| CallCreateOrder (req : CreateOrderRequest.t)
| CallGetOrderById (orderId : jsstring)
| CallInitiatePayment (req : InitiatePaymentRequest.t)
| CallUploadTransferReceipt (req : UploadReceiptRequest.t)
| Navigate (path : jsstring) (orderId : option jsstring)
| SetCurrentOrder (order : Order.t)
| ClearCart.

Definition is_api_call (e : Event) : bool :=
  match e with
  | CallGetPaymentMethods | CallCreateOrder _ | CallGetOrderById _
  | CallInitiatePayment _ | CallUploadTransferReceipt _ => true
  | Navigate _ _ | SetCurrentOrder _ | ClearCart => false
  end.

Definition is_clear_cart (e : Event) : bool :=
  match e with ClearCart => true | _ => false end.

(** How a block of statements ends. *)
Inductive Completion (A : Type) :=
| Normal (a : A)
| Abrupt (e : Thrown).
Arguments Normal {A} a.
Arguments Abrupt {A} e.

(** Handler computations over a component state [S]: they read and write the
    state, may throw, and log events. *)
Section HandlerMonad.
Variable S : Type.

Definition M (A : Type) : Type := S -> Completion A * S * list Event.

Definition ret {A} (a : A) : M A := fun s => (Normal a, s, []).

Definition bind {A B} (m : M A) (k : A -> M B) : M B :=
  fun s =>
    match m s with
    | (Normal a, s1, t1) =>
        match k a s1 with
        | (c, s2, t2) => (c, s2, t1 ++ t2)
        end
    | (Abrupt e, s1, t1) => (Abrupt e, s1, t1)
    end.

Definition modify (f : S -> S) : M unit := fun s => (Normal tt, f s, []).

Definition emit (e : Event) : M unit := fun s => (Normal tt, s, [e]).

Definition throw {A} (e : Thrown) : M A := fun s => (Abrupt e, s, []).

(** [await p] *)
Definition await {A} (p : Settled A) : M A :=
  match p with
  | Resolved a => ret a
  | Rejected e => throw e
  end.

(** [try { body } catch (err) { handler }] *)
Definition try_catch {A} (body : M A) (handler : Thrown -> M A) : M A :=
  fun s =>
    match body s with
    | (Normal a, s1, t1) => (Normal a, s1, t1)
    | (Abrupt e, s1, t1) =>
        match handler e s1 with
        | (c, s2, t2) => (c, s2, t1 ++ t2)
        end
    end.

(** [try { body } finally { final }] *)
Definition try_finally {A} (body : M A) (final : M unit) : M A :=
  fun s =>
    match body s with
    | (c, s1, t1) =>
        match final s1 with
        | (Normal _, s2, t2) => (c, s2, t1 ++ t2)
        | (Abrupt e, s2, t2) => (Abrupt e, s2, t1 ++ t2)
        end
    end.

End HandlerMonad.

Arguments ret {S A} a.
Arguments bind {S A B} m k.
Arguments modify {S} f.
Arguments emit {S} e.
Arguments throw {S A} e.
Arguments await {S A} p.
Arguments try_catch {S A} body handler.
Arguments try_finally {S A} body final.

Declare Scope handler_scope.
Delimit Scope handler_scope with handler.
Notation "x <- m ;; k" := (bind m (fun x => k))
  (at level 100, m at next level, right associativity) : handler_scope.
Notation "m ;; k" := (bind m (fun _ => k))
  (at level 100, right associativity) : handler_scope.

(** The message of the TypeError raised by reading a property of [null]
    (the exact text is the engine's; it is not empty). *)
Definition null_property_message : jsstring :=
  lit "Cannot read properties of null (reading 'id')".

(* ================================================================== *)
(** ** The cart page ([components/Cart]) *)

Module CartPage.

Record State := mk {
  ctx : OrderContext.State;
  loading : bool;
  error : option jsstring;
  specialInstructions : jsstring
}.

Definition setLoading (b : bool) : M State unit :=
  modify (fun s => mk (ctx s) b (error s) (specialInstructions s)).

Definition setError (e : option jsstring) : M State unit :=
  modify (fun s => mk (ctx s) (loading s) e (specialInstructions s)).

Definition with_ctx (f : OrderContext.State -> OrderContext.State) (s : State) : State :=
  mk (f (ctx s)) (loading s) (error s) (specialInstructions s).

Definition setCurrentOrder (o : Order.t) : M State unit :=
  (emit (SetCurrentOrder o) ;;
   modify (with_ctx (fun c =>
     OrderContext.mk (OrderContext.table c) (OrderContext.cartItems c) (Some o)
                     (OrderContext.paymentMethods c)
                     (OrderContext.selectedPaymentMethod c))))%handler.

Definition clearCart : M State unit :=
  (emit ClearCart ;;
   modify (with_ctx (fun c =>
     OrderContext.mk (OrderContext.table c)
                     (OrderContext.clearCart (OrderContext.cartItems c))
                     (OrderContext.currentOrder c)
                     (OrderContext.paymentMethods c)
                     (OrderContext.selectedPaymentMethod c))))%handler.

(** The payload built by [handleCheckout]. *)
Definition order_request (tableId : jsstring) (cartItems : list CartItem.t)
  (defaultMethod : PaymentMethod) (specialInstructions : jsstring)
  : CreateOrderRequest.t :=
  CreateOrderRequest.mk tableId
    (map (fun item =>
            CreateOrderItem.mk (CartItem.itemId item) (CartItem.quantity item)
                               (CartItem.specialInstructions item))
         cartItems)
    defaultMethod
    (if truthy specialInstructions then Some specialInstructions else None).

(** [activeMethods[0]?.type || 'cash'] *)
Definition default_method (paymentMethods : list PaymentMethodInfo.t) : PaymentMethod :=
  match filter PaymentMethodInfo.isActive paymentMethods with
  | m :: _ => PaymentMethodInfo.type m
  | [] => cash
  end.

(** [handleCheckout], run in the closure of the render [view]: [cartItems],
    [table] and [specialInstructions] are the rendered values. *)
Definition handleCheckout (api : Api) (view : State) : M State unit :=
  let cartItems := OrderContext.cartItems (ctx view) in
  let table := OrderContext.table (ctx view) in
  if Nat.eqb (List.length cartItems) 0 then ret tt
  else
    (setLoading true ;;
     setError None ;;
     try_finally
       (try_catch
          (emit CallGetPaymentMethods ;;
           paymentMethods <- await (getPaymentMethods api) ;;
           let defaultMethod := default_method paymentMethods in
           (* table!.id *)
           tableId <- match table with
                      | Some t => ret (Table.id t)
                      | None => throw (TypeError null_property_message)
                      end ;;
           let req := order_request tableId cartItems defaultMethod
                                    (specialInstructions view) in
           emit (CallCreateOrder req) ;;
           order <- await (createOrder api req) ;;
           setCurrentOrder order ;;
           clearCart ;;
           emit (Navigate (lit "/payment") (Some (Order.id order))))
          (fun err =>
             setError (Some (or_else (message err) (lit "Failed to create order")))))
       (setLoading false))%handler.

(** One click on "Proceed to Payment". *)
Definition click_checkout (api : Api) (s : State) : Completion unit * State * list Event :=
  handleCheckout api s s.

End CartPage.

(* ================================================================== *)
(** ** The payment page ([components/Payment]) *)

Module PaymentPage.

Record State := mk {
  ctx : OrderContext.State;
  locationOrderId : option jsstring;   (* location.state?.orderId *)
  loading : bool;
  error : option jsstring;
  paymentInitiated : bool;
  paymentId : option jsstring;
  receiptUrl : jsstring;
  uploading : bool
}.

(** The page as first rendered for a session context: the [useState]
    initial values. *)
Definition initial (c : OrderContext.State) (loc : option jsstring) : State :=
  mk c loc false None false None [] false.

(** [location.state?.orderId || currentOrder?.id] *)
Definition orderId (s : State) : option jsstring :=
  if truthy_opt (locationOrderId s) then locationOrderId s
  else option_map Order.id (OrderContext.currentOrder (ctx s)).

Definition setLoading (b : bool) : M State unit :=
  modify (fun s => mk (ctx s) (locationOrderId s) b (error s) (paymentInitiated s)
                      (paymentId s) (receiptUrl s) (uploading s)).

Definition setError (e : option jsstring) : M State unit :=
  modify (fun s => mk (ctx s) (locationOrderId s) (loading s) e (paymentInitiated s)
                      (paymentId s) (receiptUrl s) (uploading s)).

Definition setPaymentInitiated (b : bool) : M State unit :=
  modify (fun s => mk (ctx s) (locationOrderId s) (loading s) (error s) b
                      (paymentId s) (receiptUrl s) (uploading s)).

Definition setPaymentId (p : option jsstring) : M State unit :=
  modify (fun s => mk (ctx s) (locationOrderId s) (loading s) (error s)
                      (paymentInitiated s) p (receiptUrl s) (uploading s)).

Definition setUploading (b : bool) : M State unit :=
  modify (fun s => mk (ctx s) (locationOrderId s) (loading s) (error s)
                      (paymentInitiated s) (paymentId s) (receiptUrl s) b).

(** [setReceiptUrl(e.target.value)]: typing into the receipt field. *)
Definition setReceiptUrl (text : jsstring) (s : State) : State :=
  mk (ctx s) (locationOrderId s) (loading s) (error s) (paymentInitiated s)
     (paymentId s) text (uploading s).

(** [handleInitiatePayment] in the closure of the render [view]. *)
Definition handleInitiatePayment (api : Api) (view : State) : M State unit :=
  match OrderContext.selectedPaymentMethod (ctx view), orderId view with
  | Some selectedPaymentMethod, Some oid =>
      if negb (truthy oid) then ret tt          (* !orderId *)
      else
        (setLoading true ;;
         setError None ;;
         try_finally
           (try_catch
              (let req := InitiatePaymentRequest.mk oid
                            (PaymentMethodInfo.type selectedPaymentMethod) in
               emit (CallInitiatePayment req) ;;
               payment <- await (initiatePayment api req) ;;
               setPaymentId (Some (Payment.id payment)) ;;
               match PaymentMethodInfo.type selectedPaymentMethod with
               | transfer => setPaymentInitiated true
               | cash | pos =>
                   (* For cash or POS, navigate to order status *)
                   emit (Navigate (lit "/order-status") (Some oid))
               end)
              (fun err =>
                 setError (Some (or_else (message err)
                                         (lit "Failed to initiate payment")))))
           (setLoading false))%handler
  | _, _ => ret tt                              (* !selectedPaymentMethod || !orderId *)
  end.

(** [handleUploadReceipt] in the closure of the render [view]. *)
Definition handleUploadReceipt (api : Api) (view : State) : M State unit :=
  match paymentId view with
  | Some pid =>
      if negb (truthy (trim (receiptUrl view))) || negb (truthy pid) then ret tt
      else
        (setUploading true ;;
         setError None ;;
         try_finally
           (try_catch
              (let req := UploadReceiptRequest.mk pid (receiptUrl view) in
               emit (CallUploadTransferReceipt req) ;;
               _ <- await (uploadTransferReceipt api req) ;;
               emit (Navigate (lit "/order-status") (orderId view)))
              (fun err =>
                 setError (Some (or_else (message err)
                                         (lit "Failed to upload receipt")))))
           (setUploading false))%handler
  | None =>
      (* !paymentId; [receiptUrl.trim()] has no effect *)
      ret tt
  end.

(** One click on "Proceed with Payment". *)
Definition click_initiate (api : Api) (s : State) : Completion unit * State * list Event :=
  handleInitiatePayment api s s.

(** One click on "Upload Receipt". *)
Definition click_upload (api : Api) (s : State) : Completion unit * State * list Event :=
  handleUploadReceipt api s s.

(** The checkout flow is complete once the page has navigated to the order
    status page. *)
Definition is_order_status_nav (e : Event) : bool :=
  match e with
  | Navigate path _ => JS.eqb path (lit "/order-status")
  | _ => false
  end.

Definition completes_checkout (trace : list Event) : bool :=
  existsb is_order_status_nav trace.

(** The user types a receipt reference and clicks upload, against the
    collaborator's answer at that moment; repeated for each attempt.  The
    events of all attempts are collected. *)
Fixpoint upload_attempts (attempts : list (jsstring * Api)) (s : State)
  : State * list Event :=
  match attempts with
  | [] => (s, [])
  | (text, api) :: rest =>
      match click_upload api (setReceiptUrl text s) with
      | (_, s1, t1) =>
          match upload_attempts rest s1 with
          | (s2, t2) => (s2, t1 ++ t2)
          end
      end
  end.

(** An attempt succeeds when the request is sent and the collaborator
    accepts it. *)
Definition upload_succeeds (s : State) (attempt : jsstring * Api) : bool :=
  match paymentId s with
  | Some pid =>
      truthy (trim (fst attempt)) && truthy pid &&
      match uploadTransferReceipt (snd attempt)
              (UploadReceiptRequest.mk pid (fst attempt)) with
      | Resolved _ => true
      | Rejected _ => false
      end
  | None => false
  end.

End PaymentPage.

(* ================================================================== *)
(** ** The order status page ([components/OrderStatus]) *)

Module OrderStatusPage.

(** The component and its timer.  [locationOrderId] is the id the page was
    navigated to with, fixed while the page is shown; [interval] says
    whether the timer made by [setInterval(loadOrder, 5000)] is registered,
    [inflight] counts the [getOrderById] requests not yet settled, [log] is
    what the page has sent or navigated so far.  The [isPolling] flag of the
    second version of the component only drives an animation and is left
    out. *)
Record State := mk {
  locationOrderId : option jsstring;  (* location.state?.orderId *)
  order : option Order.t;
  currentOrder : option Order.t;      (* the session context's slot *)
  loading : bool;
  error : option jsstring;
  mounted : bool;
  interval : bool;
  inflight : nat;
  log : list Event
}.

(** [location.state?.orderId || currentOrder?.id], computed at every
    render. *)
Definition orderId (s : State) : option jsstring :=
  if truthy_opt (locationOrderId s) then locationOrderId s
  else option_map Order.id (currentOrder s).

(** The comparison React makes on the dependency [orderId] between two
    renders. *)
Definition same_orderId (a b : option jsstring) : bool :=
  match a, b with
  | Some x, Some y => JS.eqb x y
  | None, None => true
  | _, _ => false
  end.

(** [loadOrder] up to its [await]: the request is sent, for the [orderId]
    of the render whose effect made the closure. *)
Definition loadOrder_request (s : State) : State :=
  mk (locationOrderId s) (order s) (currentOrder s) (loading s) (error s)
     (mounted s) (interval s) (S (inflight s))
     (log s ++ [CallGetOrderById
                  (match orderId s with Some i => i | None => lit "undefined" end)]).

(** The effect:
    [if (!orderId) { navigate('/'); return; } loadOrder(); setInterval(...)]. *)
Definition effect (s : State) : State :=
  if negb (truthy_opt (orderId s))
  then mk (locationOrderId s) (order s) (currentOrder s) (loading s) (error s)
          (mounted s) false (inflight s) (log s ++ [Navigate (lit "/") None])
  else
    let s1 := loadOrder_request s in
    mk (locationOrderId s1) (order s1) (currentOrder s1) (loading s1) (error s1)
       (mounted s1) true (inflight s1) (log s1).

(** The effect's cleanup: [clearInterval(interval)]. *)
Definition cleanup (s : State) : State :=
  mk (locationOrderId s) (order s) (currentOrder s) (loading s) (error s)
     (mounted s) false (inflight s) (log s).

(** The render after a state change: when the page is mounted and [orderId]
    differs from the previous render's, React runs the cleanup and then the
    effect again (the dependencies are [orderId] and [navigate]). *)
Definition rerender (before after : State) : State :=
  if mounted after && negb (same_orderId (orderId before) (orderId after))
  then effect (cleanup after)
  else after.

(** [loadOrder] after its [await]: the [try]/[catch]/[finally] around the
    settled request, and the render that follows. *)
Definition loadOrder_settle (r : Settled Order.t) (s : State) : State :=
  match r with
  | Resolved orderData =>
      rerender s
        (mk (locationOrderId s) (Some orderData) (Some orderData) false (error s)
            (mounted s) (interval s) (pred (inflight s)) (log s))
  | Rejected err =>
      mk (locationOrderId s) (order s) (currentOrder s) false
         (Some (or_else (message err) (lit "Failed to load order")))
         (mounted s) (interval s) (pred (inflight s)) (log s)
  end.

(** The first render followed by the effect. *)
Definition mount (locationOrderId : option jsstring) (ctxOrder : option Order.t) : State :=
  effect (mk locationOrderId ctxOrder ctxOrder true None true false 0 []).

(** The page is left: the effect's cleanup runs and the component is gone. *)
Definition unmount (s : State) : State :=
  mk (locationOrderId s) (order s) (currentOrder s) (loading s) (error s) false
     false (inflight s) (log s).

(** What can happen to a mounted page: the timer fires, a pending request
    settles, the page is left. *)
Inductive Action :=
| Tick
| Settle (r : Settled Order.t)
| Unmount.

(** One action; [None] when it cannot happen in that state (a cleared timer
    does not fire, nothing settles without a pending request, a page is
    unmounted once). *)
Definition step (a : Action) (s : State) : option State :=
  match a with
  | Tick => if interval s then Some (loadOrder_request s) else None
  | Settle r =>
      match inflight s with
      | O => None
      | S _ => Some (loadOrder_settle r s)
      end
  | Unmount => if mounted s then Some (unmount s) else None
  end.

Fixpoint run (acts : list Action) (s : State) : option State :=
  match acts with
  | [] => Some s
  | a :: rest =>
      match step a s with
      | Some s' => run rest s'
      | None => None
      end
  end.

(** The requests sent to the collaborator so far. *)
Definition calls (s : State) : list Event := filter is_api_call (log s).

(** The tracker's phase of a status: [terminal] for ready, completed and
    rejected. *)
Definition is_terminal (st : OrderStatus) : bool :=
  match st with
  | ready | completed | rejected => true
  | pending | accepted | preparing => false
  end.

Definition tracked_terminal (s : State) : bool :=
  match order s with
  | Some o => is_terminal (Order.status o)
  | None => false
  end.

(** *** The progress checklist *)

Definition status_eqb (a b : OrderStatus) : bool :=
  match a, b with
  | pending, pending | accepted, accepted | rejected, rejected
  | preparing, preparing | ready, ready | completed, completed => true
  | _, _ => false
  end.

(** [list.includes(status)] *)
Definition includes (l : list OrderStatus) (st : OrderStatus) : bool :=
  existsb (status_eqb st) l.

Record Step := mkStep {
  step_status : OrderStatus;
  label : jsstring
}.

Definition steps : list Step :=
  [ mkStep pending (lit "Order Placed");
    mkStep accepted (lit "Order Accepted");
    mkStep preparing (lit "Preparing");
    mkStep ready (lit "Ready");
    mkStep completed (lit "Completed") ].

(** [order.status === step.status] *)
Definition isActive (orderStatus : OrderStatus) (st : Step) : bool :=
  status_eqb orderStatus (step_status st).

Definition isCompleted (orderStatus : OrderStatus) (st : Step) : bool :=
  (status_eqb (step_status st) pending
     && includes [accepted; preparing; ready; completed] orderStatus)
  || (status_eqb (step_status st) accepted
     && includes [preparing; ready; completed] orderStatus)
  || (status_eqb (step_status st) preparing
     && includes [ready; completed] orderStatus)
  || (status_eqb (step_status st) ready && status_eqb orderStatus completed)
  || (status_eqb (step_status st) completed && status_eqb orderStatus completed).

(** Position in the sequence pending < accepted < preparing < ready <
    completed; [rejected] is outside it. *)
Definition rank (st : OrderStatus) : option nat :=
  match st with
  | pending => Some 0
  | accepted => Some 1
  | preparing => Some 2
  | ready => Some 3
  | completed => Some 4
  | rejected => None
  end.

(** [current] is strictly later than [st] in the sequence. *)
Definition strictly_later (current st : OrderStatus) : Prop :=
  match rank current, rank st with
  | Some c, Some k => k < c
  | _, _ => False
  end.

End OrderStatusPage.

(* ================================================================== *)
(** ** Notions used to state the properties *)

(** A handler run signals a failure to its caller when it ends abruptly or
    leaves an error message in the page's [error] slot. *)
Definition signals_failure {A} (c : Completion A) (error : option jsstring) : Prop :=
  (exists e, c = Abrupt e) \/ error <> None.

(** The three parts of a handler run. *)
Definition completion {S A} (r : Completion A * S * list Event) : Completion A :=
  fst (fst r).

Definition final {S A} (r : Completion A * S * list Event) : S :=
  snd (fst r).

Definition events {S A} (r : Completion A * S * list Event) : list Event :=
  snd r.

(** The requests a run sent to the collaborator. *)
Definition api_calls (trace : list Event) : list Event :=
  filter is_api_call trace.

(** How often a run cleared the cart. *)
Definition cart_clears (trace : list Event) : nat :=
  List.length (filter is_clear_cart trace).

(** The order creation of a checkout from a page whose table is [t]: the
    answer to the [createOrder] request, which is only sent once the payment
    methods have been fetched. *)
Definition order_creation (api : Api) (s : CartPage.State) (t : Table.t) : Settled Order.t :=
  match getPaymentMethods api with
  | Resolved methods =>
      createOrder api
        (CartPage.order_request (Table.id t)
           (OrderContext.cartItems (CartPage.ctx s))
           (CartPage.default_method methods)
           (CartPage.specialInstructions s))
  | Rejected e => Rejected e
  end.

(** The sum over the lines of price times quantity in exact (rational)
    arithmetic; [None] when a price or quantity is NaN or infinite. *)
Fixpoint exact_total (cart : list CartItem.t) : option Q :=
  match cart with
  | [] => Some 0%Q
  | line :: rest =>
      match exact_value (MenuItem.price (CartItem.menuItem line)),
            exact_value (CartItem.quantity line),
            exact_total rest with
      | Some p, Some q, Some r => Some (p * q + r)%Q
      | _, _, _ => None
      end
  end.

(** [getCartTotal] agrees with exact arithmetic on a cart. *)
Definition total_is_exact (cart : list CartItem.t) : Prop :=
  forall e, exact_total cart = Some e ->
    exists v, exact_value (OrderContext.getCartTotal cart) = Some v /\ (v == e)%Q.

(** Left-to-right sum of a list of numbers, as [reduce] accumulates it. *)
Definition sum_numbers (l : list number) : number :=
  fold_left PrimFloat.add l 0%float.

(** Is [itemId] the key of some line? *)
Definition in_cart (itemId : jsstring) (cart : list CartItem.t) : bool :=
  existsb (fun ci => JS.eqb (CartItem.itemId ci) itemId) cart.

(* ================================================================== *)
(** ** Sample data *)

Module Sample.

Definition jollof : MenuItem.t :=
  MenuItem.mk (lit "m1") (lit "Jollof rice") (lit "Smoky party jollof")
              500%float (lit "") true 15%float (lit "c1").

Definition chicken : MenuItem.t :=
  MenuItem.mk (lit "m2") (lit "Grilled chicken") (lit "Half chicken")
              1200%float (lit "") true 25%float (lit "c1").

(** An item priced 2^53, the first integer whose successor is not a
    binary64 value, and an item priced 1. *)
Definition bullion : MenuItem.t :=
  MenuItem.mk (lit "m3") (lit "Gold bar") (lit "") 9007199254740992%float
              (lit "") true 0%float (lit "c2").

Definition sachet : MenuItem.t :=
  MenuItem.mk (lit "m4") (lit "Sachet water") (lit "") 1%float
              (lit "") true 0%float (lit "c2").

Definition table1 : Table.t :=
  Table.mk (lit "t1") (lit "1") (lit "Window") 4%float (lit "Main Hall").

Definition order_with (st : OrderStatus) : Order.t :=
  Order.mk (lit "o1") (lit "ORD-001") (lit "t1") st 2700%float (lit "cash")
           payment_pending None [] (lit "2025-01-01") (lit "2025-01-01").

Definition method_cash : PaymentMethodInfo.t :=
  PaymentMethodInfo.mk (lit "pm1") cash (lit "Cash") true None None None
                       (lit "2025-01-01").

Definition method_transfer : PaymentMethodInfo.t :=
  PaymentMethodInfo.mk (lit "pm2") transfer (lit "Bank transfer") true
                       (Some (lit "GTB")) (Some (lit "0123456789"))
                       (Some (lit "Simpleres Ltd")) (lit "2025-01-01").

Definition payment1 : Payment.t :=
  Payment.mk (lit "pay1") (lit "o1") (lit "transfer") payment_pending 2700%float
             None (lit "2025-01-01") (lit "2025-01-01").

(** A collaborator that accepts every request. *)
Definition api_up : Api :=
  {| getPaymentMethods := Resolved [method_cash; method_transfer];
     createOrder := fun _ => Resolved (order_with pending);
     getOrderById := fun _ => Resolved (order_with pending);
     initiatePayment := fun _ => Resolved payment1;
     uploadTransferReceipt := fun _ => Resolved payment1 |}.

(** A collaborator that lists the payment methods but refuses orders. *)
Definition api_refusing : Api :=
  {| getPaymentMethods := Resolved [method_cash; method_transfer];
     createOrder := fun _ => Rejected (ApiError 400 (lit "Bad Request") None);
     getOrderById := fun _ => Rejected (ApiError 404 (lit "Not Found") None);
     initiatePayment := fun _ => Rejected (ApiError 400 (lit "Bad Request") None);
     uploadTransferReceipt := fun _ => Rejected (ApiError 400 (lit "Bad Request") None) |}.

Definition cart2 : list CartItem.t :=
  OrderContext.addToCart chicken 1%float (OrderContext.addToCart jollof 3%float []).

Definition ctx_with (table : option Table.t) (cart : list CartItem.t) : OrderContext.State :=
  OrderContext.mk table cart None [] None.

Definition cart_page (table : option Table.t) (cart : list CartItem.t) : CartPage.State :=
  CartPage.mk (ctx_with table cart) false None [].

Definition payment_page (m : PaymentMethodInfo.t) : PaymentPage.State :=
  PaymentPage.initial
    (OrderContext.mk (Some table1) [] (Some (order_with pending))
                     [method_cash; method_transfer] (Some m))
    (Some (lit "o1")).

(** The payment page after a transfer payment was initiated and the user
    typed only blanks into the receipt field. *)
Definition awaiting_receipt_blank : PaymentPage.State :=
  PaymentPage.mk
    (OrderContext.mk (Some table1) [] (Some (order_with pending))
                     [method_cash; method_transfer] (Some method_transfer))
    (Some (lit "o1")) false None true (Some (lit "pay1")) (lit "   ") false.

End Sample.

(* ================================================================== *)
(** ** JavaScript numbers: truthiness and [Math.max] *)

Module JSNum.

(** ToBoolean on a number: [+0], [-0] and [NaN] are falsy. *)
Definition truthy (x : number) : bool :=
  negb (PrimFloat.is_nan x) && negb (x =? 0)%float.

(** [x || d] on numbers. *)
Definition or_else (x d : number) : number :=
  if truthy x then x else d.

Definition is_negative_zero (x : number) : bool :=
  match PrimFloat.classify x with
  | NZero => true
  | _ => false
  end.

(** [Math.max(a, b)]: NaN when an argument is NaN, otherwise the larger
    one, [+0] counting as larger than [-0]. *)
Definition max (a b : number) : number :=
  if PrimFloat.is_nan a || PrimFloat.is_nan b then nan
  else if (a <? b)%float then b
  else if (b <? a)%float then a
  else if is_negative_zero a then b
  else a.

End JSNum.

(* ================================================================== *)
(** ** The menu page ([components/Menu]) *)

(** The value found under [menuItems] or [items] of a category as it
    arrives: nothing (or another falsy value), a truthy value that is not an
    array, or an array of items. *)
Inductive RawItems :=
| ItemsMissing
| ItemsNotArray
| ItemsArray (l : list MenuItem.t).

(** A category as [api.getMenu()] delivers it. *)
Module RawCategory.
Record t := mk {
  id : jsstring;
  name : jsstring;
  description : jsstring;
  displayOrder : number;
  isActive : bool;
  menuItems : RawItems;
  items : RawItems
}.
End RawCategory.

(** [interface MenuCategory] *)
Module MenuCategory.
Record t := mk {
  id : jsstring;
  name : jsstring;
  description : jsstring;
  displayOrder : number;
  isActive : bool;
  menuItems : list MenuItem.t
}.
End MenuCategory.

Module MenuPage.

Record State := mk {
  ctx : OrderContext.State;
  menu : list MenuCategory.t;
  loading : bool;
  error : option jsstring;
  selectedCategory : option jsstring
}.

(** The page as first rendered. *)
Definition initial (c : OrderContext.State) : State :=
  mk c [] true None None.

(** [cat.menuItems || cat.items || []], then
    [Array.isArray(items) ? items : []]. *)
Definition menuItemsArray (cat : RawCategory.t) : list MenuItem.t :=
  let items :=
    match RawCategory.menuItems cat with
    | ItemsMissing => RawCategory.items cat
    | found => found
    end in
  match items with
  | ItemsArray l => l
  | ItemsMissing | ItemsNotArray => []
  end.

(** [menuData.filter(cat => cat.isActive).map(cat => ({...cat, menuItems:
    menuItemsArray}))] *)
Definition validCategories (menuData : list RawCategory.t) : list MenuCategory.t :=
  map (fun cat =>
         MenuCategory.mk (RawCategory.id cat) (RawCategory.name cat)
                         (RawCategory.description cat)
                         (RawCategory.displayOrder cat)
                         (RawCategory.isActive cat)
                         (menuItemsArray cat))
      (filter RawCategory.isActive menuData).

(** [loadMenu] up to its [await]: [setLoading(true); setError(null)]. *)
Definition loadMenu_request (s : State) : State :=
  mk (ctx s) (menu s) true None (selectedCategory s).

(** [loadMenu] after its [await], for the settled [api.getMenu()]. *)
Definition loadMenu_settle (r : Settled (list RawCategory.t)) (s : State) : State :=
  match r with
  | Resolved menuData =>
      let valid := validCategories menuData in
      match valid with
      | first :: _ =>
          mk (ctx s) valid false (error s) (Some (MenuCategory.id first))
      | [] =>
          mk (ctx s) valid false
             (Some (lit "No menu categories available. Please add menu items through the admin panel."))
             (selectedCategory s)
      end
  | Rejected err =>
      mk (ctx s) (menu s) false
         (Some (or_else (message err) (lit "Failed to load menu")))
         (selectedCategory s)
  end.

Definition loadMenu (r : Settled (list RawCategory.t)) (s : State) : State :=
  loadMenu_settle r (loadMenu_request s).

(** [cartItems.find((ci) => ci.menuItem.id === itemId)] *)
Definition find_line (itemId : jsstring) (cartItems : list CartItem.t) : option CartItem.t :=
  find (fun ci => JS.eqb (CartItem.itemId ci) itemId) cartItems.

(** [getItemQuantity(itemId)]: [item?.quantity || 0]. *)
Definition getItemQuantity (itemId : jsstring) (cartItems : list CartItem.t) : number :=
  match find_line itemId cartItems with
  | Some item => JSNum.or_else (CartItem.quantity item) 0%float
  | None => 0%float
  end.

(** [handleAddToCart(item)], as the updater it queues. *)
Definition handleAddToCart (item : MenuItem.t) : list CartItem.t -> list CartItem.t :=
  OrderContext.addToCart item 1%float.

(** [handleQuantityChange(item, delta)], as the updater it queues: the
    current quantity is read from the rendered [cartItems]. *)
Definition handleQuantityChange (cartItems : list CartItem.t) (item : MenuItem.t)
  (delta : number) : list CartItem.t -> list CartItem.t :=
  let currentQty := getItemQuantity (MenuItem.id item) cartItems in
  let newQty := JSNum.max 0%float (currentQty + delta)%float in
  OrderContext.updateCartItemQuantity (MenuItem.id item) newQty.

End MenuPage.

(** Every way the pages change the cart: the context's operations and the
    two handlers of the menu page (clicked on the cart they render). *)
Inductive CartCall :=
| DoAdd (item : MenuItem.t) (quantity : number)
| DoRemove (itemId : jsstring)
| DoSetQuantity (itemId : jsstring) (quantity : number)
| DoSetInstructions (itemId : jsstring) (instructions : jsstring)
| DoClear
| DoMenuAdd (item : MenuItem.t)
| DoMenuChange (item : MenuItem.t) (delta : number).

Definition apply_call (c : CartCall) (cart : list CartItem.t) : list CartItem.t :=
  match c with
  | DoAdd item q => OrderContext.addToCart item q cart
  | DoRemove i => OrderContext.removeFromCart i cart
  | DoSetQuantity i q => OrderContext.updateCartItemQuantity i q cart
  | DoSetInstructions i text => OrderContext.updateCartItemInstructions i text cart
  | DoClear => OrderContext.clearCart cart
  | DoMenuAdd item => MenuPage.handleAddToCart item cart
  | DoMenuChange item delta => MenuPage.handleQuantityChange cart item delta cart
  end.

Definition apply_calls (cs : list CartCall) (cart : list CartItem.t) : list CartItem.t :=
  fold_left (fun c call => apply_call call c) cs cart.

(** The calls that go through [addToCart]. *)
Definition is_add_call (c : CartCall) : bool :=
  match c with
  | DoAdd _ _ | DoMenuAdd _ => true
  | _ => false
  end.

(* ================================================================== *)
(** ** Page effects of the cart and payment pages *)

Module CartPageEffects.

Definition setPaymentMethods (methods : list PaymentMethodInfo.t) : M CartPage.State unit :=
  modify (CartPage.with_ctx (fun c =>
    OrderContext.mk (OrderContext.table c) (OrderContext.cartItems c)
                    (OrderContext.currentOrder c) methods
                    (OrderContext.selectedPaymentMethod c))).

(** [loadPaymentMethods]: a failure is only written to the console. *)
Definition loadPaymentMethods (api : Api) : M CartPage.State unit :=
  try_catch
    (emit CallGetPaymentMethods ;;
     methods <- await (getPaymentMethods api) ;;
     setPaymentMethods (filter PaymentMethodInfo.isActive methods))%handler
    (fun err => ret tt).

(** The page's effect:
    [if (!table) { navigate('/'); return; } loadPaymentMethods();]. *)
Definition effect (api : Api) (view : CartPage.State) : M CartPage.State unit :=
  match OrderContext.table (CartPage.ctx view) with
  | None => emit (Navigate (lit "/") None)
  | Some _ => loadPaymentMethods api
  end.

Definition run_effect (api : Api) (s : CartPage.State)
  : Completion unit * CartPage.State * list Event :=
  effect api s s.

End CartPageEffects.

Module PaymentPageEffects.

Definition setCurrentOrder (o : Order.t) : M PaymentPage.State unit :=
  (emit (SetCurrentOrder o) ;;
   modify (fun s =>
     PaymentPage.mk
       (OrderContext.mk (OrderContext.table (PaymentPage.ctx s))
                        (OrderContext.cartItems (PaymentPage.ctx s))
                        (Some o)
                        (OrderContext.paymentMethods (PaymentPage.ctx s))
                        (OrderContext.selectedPaymentMethod (PaymentPage.ctx s)))
       (PaymentPage.locationOrderId s) (PaymentPage.loading s)
       (PaymentPage.error s) (PaymentPage.paymentInitiated s)
       (PaymentPage.paymentId s) (PaymentPage.receiptUrl s)
       (PaymentPage.uploading s)))%handler.

(** [loadOrder] in the closure of the render [view]. *)
Definition loadOrder (api : Api) (view : PaymentPage.State) : M PaymentPage.State unit :=
  try_catch
    (let oid := match PaymentPage.orderId view with
                | Some i => i
                | None => lit "undefined"
                end in
     emit (CallGetOrderById oid) ;;
     order <- await (getOrderById api oid) ;;
     setCurrentOrder order)%handler
    (fun err =>
       PaymentPage.setError (Some (or_else (message err) (lit "Failed to load order")))).

(** The page's effect:
    [if (!orderId) { navigate('/'); return; }
     if (!currentOrder && orderId) { loadOrder(); }]. *)
Definition effect (api : Api) (view : PaymentPage.State) : M PaymentPage.State unit :=
  if negb (truthy_opt (PaymentPage.orderId view))
  then emit (Navigate (lit "/") None)
  else
    match OrderContext.currentOrder (PaymentPage.ctx view) with
    | None => loadOrder api view
    | Some _ => ret tt
    end.

Definition run_effect (api : Api) (s : PaymentPage.State)
  : Completion unit * PaymentPage.State * list Event :=
  effect api s s.

(** [setSelectedPaymentMethod(method)]: a click on a listed method. *)
Definition setSelectedPaymentMethod (method : PaymentMethodInfo.t)
  (s : PaymentPage.State) : PaymentPage.State :=
  PaymentPage.mk
    (OrderContext.mk (OrderContext.table (PaymentPage.ctx s))
                     (OrderContext.cartItems (PaymentPage.ctx s))
                     (OrderContext.currentOrder (PaymentPage.ctx s))
                     (OrderContext.paymentMethods (PaymentPage.ctx s))
                     (Some method))
    (PaymentPage.locationOrderId s) (PaymentPage.loading s)
    (PaymentPage.error s) (PaymentPage.paymentInitiated s)
    (PaymentPage.paymentId s) (PaymentPage.receiptUrl s)
    (PaymentPage.uploading s).

End PaymentPageEffects.

(* ================================================================== *)
(** ** The fetch wrapper ([fetchApi] of [services/api]) *)

Module ApiService.

(** A parsed JSON value, as [response.json()] resolves to. *)
#[local] Unset Elimination Schemes.
Inductive Json :=
| JNull
| JBool (b : bool)
| JNumber (n : number)
| JString (s : jsstring)
| JArray (items : list Json)
| JObject (fields : list (jsstring * Json)).
#[local] Set Elimination Schemes.

(** The value under a key of an object's fields; [JSON.parse] keeps the
    last of repeated keys. *)
Fixpoint field (key : jsstring) (fields : list (jsstring * Json)) : option Json :=
  match fields with
  | [] => None
  | (k, v) :: rest =>
      match field key rest with
      | Some later => Some later
      | None => if JS.eqb k key then Some v else None
      end
  end.

(** [value.key] for [key] one of ["message"] and ["error"], on a value that
    is not [null]: [None] is [undefined].  Only objects have such a
    property; arrays, strings, numbers and booleans have none. *)
Definition property (value : Json) (key : jsstring) : option Json :=
  match value with
  | JObject fields => field key fields
  | _ => None
  end.

(** ToBoolean on a JSON value. *)
Definition json_truthy (v : Json) : bool :=
  match v with
  | JNull => false
  | JBool b => b
  | JNumber n => JSNum.truthy n
  | JString s => truthy s
  | JArray _ | JObject _ => true
  end.

(** What an [ApiError] or another rejection carries; a fulfilled promise
    carries the result. *)
Inductive Outcome (T : Type) :=
| Fulfilled (value : T)
| RejectedApiError (statusCode : N) (message : jsstring) (error : option Json)
| RejectedOther (e : Thrown).
Arguments Fulfilled {T} value.
Arguments RejectedApiError {T} statusCode message error.
Arguments RejectedOther {T} e.

(** What [fetchApi] uses of a [Response]; [json] is the settled
    [response.json()]. *)
Record Response := mkResponse {
  ok : bool;
  status : N;
  statusText : jsstring;
  json : Settled Json
}.

(** The message of the TypeError raised by reading [message] of [null]. *)
Definition null_message_text : jsstring :=
  lit "Cannot read properties of null (reading 'message')".

Section Fetch.

(** [Number.prototype.toString], and the unchecked reading of a body as the
    endpoint's result type. *)
Variable number_toString : number -> jsstring.
Variable T : Type.
Variable as_result : Json -> T.

(** ToString, as the [Error] constructor applies it to its message.  An
    array is its elements joined by commas, [null] elements giving the
    empty string. *)
Fixpoint toString (v : Json) : jsstring :=
  match v with
  | JNull => lit "null"
  | JBool b => if b then lit "true" else lit "false"
  | JNumber n => number_toString n
  | JString s => s
  | JArray items =>
      (fix join (l : list Json) : jsstring :=
         match l with
         | [] => []
         | x :: rest =>
             let first := match x with JNull => [] | _ => toString x end in
             match rest with
             | [] => first
             | _ :: _ => first ++ lit "," ++ join rest
             end
         end) items
  | JObject _ => lit "[object Object]"
  end.

(** [error.message || 'An error occurred'], then ToString by
    [super(message)]. *)
Definition error_message (error : Json) : jsstring :=
  match property error (lit "message") with
  | Some v => if json_truthy v then toString v else lit "An error occurred"
  | None => lit "An error occurred"
  end.

(** [fetchApi<T>(endpoint, options)], for the settled [fetch(url, ...)]. *)
Definition fetchApi (fetched : Settled Response) : Outcome T :=
  match fetched with
  | Rejected e => RejectedOther e
  | Resolved response =>
      if negb (ok response) then
        (* response.json().catch(() => ({ message: response.statusText,
                                          error: 'Unknown error' })) *)
        let error :=
          match json response with
          | Resolved body => body
          | Rejected _ =>
              JObject [(lit "message", JString (statusText response));
                       (lit "error", JString (lit "Unknown error"))]
          end in
        match error with
        | JNull => RejectedOther (TypeError null_message_text)
        | _ =>
            RejectedApiError (status response) (error_message error)
                             (property error (lit "error"))
        end
      else
        match json response with
        | Resolved body => Fulfilled (as_result body)
        | Rejected e => RejectedOther e
        end
  end.

End Fetch.

Arguments fetchApi number_toString {T} as_result fetched.

End ApiService.

(* ================================================================== *)
(** ** Notions used to state further properties *)

Definition is_tick (a : OrderStatusPage.Action) : bool :=
  match a with OrderStatusPage.Tick => true | _ => false end.

Definition is_settle (a : OrderStatusPage.Action) : bool :=
  match a with OrderStatusPage.Settle _ => true | _ => false end.

Definition is_unmount (a : OrderStatusPage.Action) : bool :=
  match a with OrderStatusPage.Unmount => true | _ => false end.

(** The page is not left during the run. *)
Definition no_unmount (acts : list OrderStatusPage.Action) : bool :=
  forallb (fun a => negb (is_unmount a)) acts.

(** Every order received during the run carries a non-empty id. *)
Definition answers_have_id (acts : list OrderStatusPage.Action) : bool :=
  forallb
    (fun a =>
       match a with
       | OrderStatusPage.Settle (Resolved orderData) => truthy (Order.id orderData)
       | _ => true
       end)
    acts.

(** Every order received during the run carries the id [oid]. *)
Definition answers_carry_id (oid : jsstring) (acts : list OrderStatusPage.Action) : bool :=
  forallb
    (fun a =>
       match a with
       | OrderStatusPage.Settle (Resolved orderData) => JS.eqb (Order.id orderData) oid
       | _ => true
       end)
    acts.

(** How many timer ticks and how many settled requests a run has. *)
Definition tick_count (acts : list OrderStatusPage.Action) : nat :=
  List.length (filter is_tick acts).

Definition settle_count (acts : list OrderStatusPage.Action) : nat :=
  List.length (filter is_settle acts).

(** The snapshot held after a run that started with [held]: the order of
    the last request that resolved, if any. *)
Definition last_snapshot (acts : list OrderStatusPage.Action) (held : option Order.t)
  : option Order.t :=
  fold_left
    (fun o a =>
       match a with
       | OrderStatusPage.Settle (Resolved orderData) => Some orderData
       | _ => o
       end)
    acts held.

(** How many steps of the checklist are marked completed for a status. *)
Definition steps_done (current : OrderStatus) : nat :=
  match current with
  | pending | rejected => 0
  | accepted => 1
  | preparing => 2
  | ready => 3
  | completed => 5
  end.

(** A line of the cart with its quantity replaced. *)
Definition with_quantity (q : number) (ci : CartItem.t) : CartItem.t :=
  CartItem.mk (CartItem.menuItem ci) q (CartItem.specialInstructions ci).

(** More sample data. *)
Module Sample2.

Definition starters : RawCategory.t :=
  RawCategory.mk (lit "c1") (lit "Mains") (lit "") 1%float true
                 (ItemsArray [Sample.jollof; Sample.chicken]) ItemsMissing.

Definition retired : RawCategory.t :=
  RawCategory.mk (lit "c0") (lit "Breakfast") (lit "") 0%float false
                 (ItemsArray []) ItemsMissing.

Definition drinks : RawCategory.t :=
  RawCategory.mk (lit "c2") (lit "Drinks") (lit "") 2%float true
                 ItemsMissing (ItemsArray [Sample.sachet]).

Definition method_retired : PaymentMethodInfo.t :=
  PaymentMethodInfo.mk (lit "pm0") pos (lit "Old POS") false None None None
                       (lit "2024-01-01").

(** A collaborator whose first listed method is inactive. *)
Definition api_mixed : Api :=
  {| getPaymentMethods :=
       Resolved [method_retired; Sample.method_transfer; Sample.method_cash];
     createOrder := fun _ => Resolved (Sample.order_with pending);
     getOrderById := fun _ => Resolved (Sample.order_with pending);
     initiatePayment := fun _ => Resolved Sample.payment1;
     uploadTransferReceipt := fun _ => Resolved Sample.payment1 |}.

(** The payment page awaiting a receipt, with a reference typed in. *)
Definition awaiting_receipt_typed : PaymentPage.State :=
  PaymentPage.setReceiptUrl (lit " https://img.example/r.png ")
                            Sample.awaiting_receipt_blank.

(** The payment page opened from a link, the context holding no order. *)
Definition payment_page_cold : PaymentPage.State :=
  PaymentPage.initial
    (OrderContext.mk (Some Sample.table1) [] None [] None)
    (Some (lit "o1")).

End Sample2.

(* ================================================================== *)
(** ** Strings *)

Lemma str_eqb_refl (a : jsstring) : JS.eqb a a = true.
Proof.
  induction a as [|x a IH]; simpl; [reflexivity|].
  now rewrite N.eqb_refl, IH.
Qed.

Lemma str_eqb_eq (a b : jsstring) : JS.eqb a b = true <-> a = b.
Proof.
  split; [|intros ->; apply str_eqb_refl].
  revert b; induction a as [|x a IH]; intros [|y b]; simpl; try discriminate; auto.
  intros H; apply andb_true_iff in H as [Hx Hab].
  apply N.eqb_eq in Hx; subst y.
  now rewrite (IH b Hab).
Qed.

Lemma str_eqb_neq (a b : jsstring) : JS.eqb a b = false <-> a <> b.
Proof.
  split.
  - intros H Heq. apply str_eqb_eq in Heq. congruence.
  - intros H. destruct (JS.eqb a b) eqn:E; [|reflexivity].
    apply str_eqb_eq in E. contradiction.
Qed.

Lemma str_eqb_sym (a b : jsstring) : JS.eqb a b = JS.eqb b a.
Proof.
  destruct (JS.eqb a b) eqn:E.
  - apply str_eqb_eq in E; subst. symmetry; apply str_eqb_refl.
  - symmetry. apply str_eqb_neq. apply str_eqb_neq in E. congruence.
Qed.

Lemma trimStart_blank (s : jsstring) :
  trimStart s = [] <-> forallb is_whitespace s = true.
Proof.
  induction s as [|c s IH]; simpl.
  - tauto.
  - destruct (is_whitespace c); simpl.
    + exact IH.
    + split; discriminate.
Qed.

Example trim_strips_both_ends :
  trim ([9; 32]%N ++ lit "a b" ++ [160; 10]%N) = lit "a b".
Proof. reflexivity. Qed.

(** [s.trim()] is empty exactly when [s] is made of white space only. *)
Lemma trim_blank (s : jsstring) :
  trim s = [] <-> forallb is_whitespace s = true.
Proof.
  unfold trim, trimEnd. split.
  - intros H. apply trimStart_blank.
    destruct (trimStart s) as [|c r] eqn:E; [reflexivity|].
    exfalso.
    (* the first character kept by trimStart is not white space, and it
       survives the trimming of the end *)
    assert (Hc : is_whitespace c = false).
    { clear H. induction s as [|d s IH]; simpl in E; [discriminate|].
      destruct (is_whitespace d) eqn:D; [auto|]. now inversion E; subst. }
    assert (Hin : forall l, In c l -> is_whitespace c = false -> trimStart l <> []).
    { clear. induction l as [|d l IH]; simpl; intros Hin Hc; [contradiction|].
      destruct (is_whitespace d) eqn:D.
      - destruct Hin as [->|Hin]; [congruence|auto].
      - discriminate. }
    apply (f_equal (@rev N)) in H. rewrite rev_involutive in H. simpl in H.
    apply (Hin (rev (c :: r))); auto.
    apply -> in_rev. now left.
  - intros H. apply trimStart_blank in H. now rewrite H.
Qed.

(* ================================================================== *)
(** ** The cart *)

Section CartFacts.

Import OrderContext.

Example cart2_lines :
  Sample.cart2 = [CartItem.mk Sample.jollof 3%float None;
                  CartItem.mk Sample.chicken 1%float None].
Proof. reflexivity. Qed.

Example addToCart_merges :
  addToCart Sample.jollof 2%float Sample.cart2
  = [CartItem.mk Sample.jollof 5%float None;
     CartItem.mk Sample.chicken 1%float None].
Proof. reflexivity. Qed.

Example updateCartItemQuantity_replaces :
  updateCartItemQuantity (lit "m2") 4%float Sample.cart2
  = [CartItem.mk Sample.jollof 3%float None;
     CartItem.mk Sample.chicken 4%float None].
Proof. reflexivity. Qed.

Lemma in_cart_iff (i : jsstring) (cart : list CartItem.t) :
  in_cart i cart = true <-> In i (cart_ids cart).
Proof.
  unfold in_cart, cart_ids. rewrite existsb_exists, in_map_iff.
  split; intros [ci [H1 H2]]; exists ci.
  - apply str_eqb_eq in H2. auto.
  - split; [auto|]. apply str_eqb_eq; auto.
Qed.

Lemma find_in_cart (i : jsstring) (cart : list CartItem.t) :
  find (fun ci => JS.eqb (CartItem.itemId ci) i) cart = None <-> in_cart i cart = false.
Proof.
  unfold in_cart. induction cart as [|ci cart IH]; simpl; [tauto|].
  destruct (JS.eqb (CartItem.itemId ci) i); simpl; [|exact IH].
  split; discriminate.
Qed.

(** Rewriting lines without touching their keys keeps the list of keys. *)
Lemma cart_ids_map (f : CartItem.t -> CartItem.t) (cart : list CartItem.t) :
  (forall ci, CartItem.itemId (f ci) = CartItem.itemId ci) ->
  cart_ids (map f cart) = cart_ids cart.
Proof.
  intros Hf. unfold cart_ids. rewrite map_map. apply map_ext. exact Hf.
Qed.

(** Removing lines never brings in a key. *)
Lemma removeFromCart_ids_incl (i k : jsstring) (cart : list CartItem.t) :
  In k (cart_ids (removeFromCart i cart)) -> In k (cart_ids cart).
Proof.
  unfold cart_ids, removeFromCart. rewrite !in_map_iff.
  intros [ci [Hk Hin]]. exists ci. split; [exact Hk|].
  now apply filter_In in Hin.
Qed.

(** The keys after [addToCart]. *)
Lemma addToCart_ids (item : MenuItem.t) (q : number) (cart : list CartItem.t) :
  cart_ids (addToCart item q cart) =
  if in_cart (MenuItem.id item) cart then cart_ids cart
  else cart_ids cart ++ [MenuItem.id item].
Proof.
  unfold addToCart.
  destruct (find _ cart) eqn:F.
  - destruct (in_cart (MenuItem.id item) cart) eqn:I.
    + apply cart_ids_map. intros ci.
      now destruct (JS.eqb (CartItem.itemId ci) (MenuItem.id item)).
    + apply find_in_cart in I. congruence.
  - apply find_in_cart in F. rewrite F.
    unfold cart_ids. now rewrite map_app.
Qed.

(** The quantities after [addToCart]. *)
Lemma addToCart_quantities (item : MenuItem.t) (q : number) (cart : list CartItem.t) :
  map CartItem.quantity (addToCart item q cart) =
  if in_cart (MenuItem.id item) cart
  then map (fun ci => if JS.eqb (CartItem.itemId ci) (MenuItem.id item)
                      then (CartItem.quantity ci + q)%float
                      else CartItem.quantity ci) cart
  else map CartItem.quantity cart ++ [q].
Proof.
  unfold addToCart.
  destruct (find _ cart) eqn:F.
  - destruct (in_cart (MenuItem.id item) cart) eqn:I.
    + rewrite map_map. apply map_ext. intros ci.
      now destruct (JS.eqb (CartItem.itemId ci) (MenuItem.id item)).
    + apply find_in_cart in I. congruence.
  - apply find_in_cart in F. rewrite F. now rewrite map_app.
Qed.

Lemma addToCart_NoDup (item : MenuItem.t) (q : number) (cart : list CartItem.t) :
  NoDup (cart_ids cart) -> NoDup (cart_ids (addToCart item q cart)).
Proof.
  intros H. rewrite addToCart_ids.
  destruct (in_cart (MenuItem.id item) cart) eqn:I; [exact H|].
  apply NoDup_rev in H. rewrite <- (rev_involutive (_ ++ _)).
  apply NoDup_rev. rewrite rev_app_distr. simpl.
  constructor; [|exact H].
  rewrite <- in_rev. intros Hin. apply in_cart_iff in Hin. congruence.
Qed.

Lemma removeFromCart_NoDup (i : jsstring) (cart : list CartItem.t) :
  NoDup (cart_ids cart) -> NoDup (cart_ids (removeFromCart i cart)).
Proof.
  induction cart as [|ci cart IH]; intros Hnd; [constructor|].
  change (cart_ids (ci :: cart)) with (CartItem.itemId ci :: cart_ids cart) in Hnd.
  apply NoDup_cons_iff in Hnd as [Hfresh Hnd].
  change (removeFromCart i (ci :: cart))
    with (if negb (JS.eqb (CartItem.itemId ci) i)
          then ci :: removeFromCart i cart else removeFromCart i cart).
  destruct (negb (JS.eqb (CartItem.itemId ci) i)); [|now apply IH].
  change (cart_ids (ci :: removeFromCart i cart))
    with (CartItem.itemId ci :: cart_ids (removeFromCart i cart)).
  constructor; [|now apply IH].
  intros Hin. apply Hfresh. now apply removeFromCart_ids_incl in Hin.
Qed.

Lemma updateCartItemQuantity_NoDup (i : jsstring) (q : number) (cart : list CartItem.t) :
  NoDup (cart_ids cart) -> NoDup (cart_ids (updateCartItemQuantity i q cart)).
Proof.
  intros H. unfold updateCartItemQuantity.
  destruct (q <=? 0)%float.
  - now apply removeFromCart_NoDup.
  - rewrite cart_ids_map; [exact H|].
    intros ci. now destruct (JS.eqb (CartItem.itemId ci) i).
Qed.

Lemma apply_op_NoDup (op : CartOp) (cart : list CartItem.t) :
  NoDup (cart_ids cart) -> NoDup (cart_ids (apply_op op cart)).
Proof.
  destruct op; simpl.
  - apply addToCart_NoDup.
  - apply updateCartItemQuantity_NoDup.
  - apply removeFromCart_NoDup.
Qed.

Lemma apply_ops_NoDup (ops : list CartOp) (cart : list CartItem.t) :
  NoDup (cart_ids cart) -> NoDup (cart_ids (apply_ops ops cart)).
Proof.
  revert cart. induction ops as [|op ops IH]; intros cart H; simpl; [exact H|].
  apply IH. now apply apply_op_NoDup.
Qed.

Lemma cartItemCount_from (acc : number) (cart : list CartItem.t) :
  fold_left (fun sum item => (sum + CartItem.quantity item)%float) cart acc =
  fold_left PrimFloat.add (map CartItem.quantity cart) acc.
Proof.
  revert acc. induction cart as [|ci cart IH]; intros acc; simpl; [reflexivity|].
  apply IH.
Qed.

(** C7. Whatever sequence of [addToCart], [updateCartItemQuantity] and
    [removeFromCart] calls is applied to the empty cart, no two lines of the
    resulting cart have the same menu item id; the item count is the sum of
    the line quantities (accumulated from 0 in line order, as [reduce]
    does); and a further [addToCart] of an item already in the cart keeps
    the lines and adds the quantity to the item's line, while an item not
    yet in the cart gets a new last line. *)
Theorem cart_lines_unique_and_counted :
  forall (ops : list CartOp),
    let cart := apply_ops ops [] in
    NoDup (cart_ids cart)
    /\ cartItemCount cart = sum_numbers (map CartItem.quantity cart)
    /\ forall (item : MenuItem.t) (q : number),
         cart_ids (addToCart item q cart) =
           (if in_cart (MenuItem.id item) cart then cart_ids cart
            else cart_ids cart ++ [MenuItem.id item])
         /\ map CartItem.quantity (addToCart item q cart) =
           (if in_cart (MenuItem.id item) cart
            then map (fun ci => if JS.eqb (CartItem.itemId ci) (MenuItem.id item)
                                then (CartItem.quantity ci + q)%float
                                else CartItem.quantity ci) cart
            else map CartItem.quantity cart ++ [q]).
Proof.
  intros ops cart. split; [|split].
  - apply apply_ops_NoDup. constructor.
  - unfold cartItemCount, sum_numbers. apply cartItemCount_from.
  - intros item q. split.
    + apply addToCart_ids.
    + apply addToCart_quantities.
Qed.

Lemma getCartTotal_from (acc : number) (cart : list CartItem.t) (line : CartItem.t) :
  fold_left
    (fun total item =>
       (total + MenuItem.price (CartItem.menuItem item) * CartItem.quantity item)%float)
    (cart ++ [line]) acc =
  (fold_left
     (fun total item =>
        (total + MenuItem.price (CartItem.menuItem item) * CartItem.quantity item)%float)
     cart acc
   + MenuItem.price (CartItem.menuItem line) * CartItem.quantity line)%float.
Proof. now rewrite fold_left_app. Qed.

(** The total is the left-to-right sum of the line amounts. *)
Lemma getCartTotal_sum (cart : list CartItem.t) :
  getCartTotal cart =
  sum_numbers
    (map (fun ci => (MenuItem.price (CartItem.menuItem ci)
                     * CartItem.quantity ci)%float) cart).
Proof.
  unfold getCartTotal, sum_numbers. generalize 0%float as acc.
  induction cart as [|ci cart IH]; intros acc; simpl; [reflexivity|].
  apply IH.
Qed.

(** The total only depends on the prices and quantities of the lines. *)
Lemma getCartTotal_ext (c1 c2 : list CartItem.t) :
  map (fun ci => (MenuItem.price (CartItem.menuItem ci), CartItem.quantity ci)) c1 =
  map (fun ci => (MenuItem.price (CartItem.menuItem ci), CartItem.quantity ci)) c2 ->
  getCartTotal c1 = getCartTotal c2.
Proof.
  unfold getCartTotal. generalize 0%float as acc.
  revert c2. induction c1 as [|a c1 IH]; intros [|b c2] acc H; simpl in *;
    try discriminate; [reflexivity|].
  inversion H as [[Hp Hq Hrest]]. rewrite Hp, Hq. now apply IH.
Qed.

(** C8, as the specification states it, fails: with an item priced
    9007199254740992 (2^53) and an item priced 1, one of each, exact
    arithmetic gives 9007199254740993 but [getCartTotal] gives
    9007199254740992. *)
Lemma getCartTotal_not_exact :
  ~ total_is_exact [CartItem.mk Sample.bullion 1%float None;
                    CartItem.mk Sample.sachet 1%float None].
Proof.
  intros H.
  destruct (H _ eq_refl) as [v [Hv Hq]].
  vm_compute in Hv. inversion Hv; subst v. vm_compute in Hq. discriminate.
Qed.

(** The same happens with everyday fractional prices: three portions at
    0.1 add up to 0.30000000000000004. *)
Example getCartTotal_rounds_fractions :
  let dime := MenuItem.mk (lit "m5") (lit "Chewing gum") (lit "")
                          0x1.999999999999ap-4%float (lit "") true 0%float (lit "c2") in
  getCartTotal [CartItem.mk dime 3%float None] = 0x1.3333333333334p-2%float
  /\ ~ total_is_exact [CartItem.mk dime 3%float None].
Proof.
  split; [reflexivity|].
  intros H.
  destruct (H _ eq_refl) as [v [Hv Hq]].
  vm_compute in Hv. inversion Hv; subst v. vm_compute in Hq. discriminate.
Qed.

(** C8, amended. [getCartTotal] is the sum of price times quantity over the
    lines, accumulated in line order and starting from 0, in the binary64
    arithmetic of JavaScript numbers; it is 0 for the empty cart.  With an
    item priced 500 added with quantity 3 and another item priced 1200 added
    with quantity 1 the total is 2700, and after the first item's quantity is
    set to 0 it is 1200. *)
Theorem getCartTotal_accumulates :
  forall (a b : MenuItem.t),
    MenuItem.price a = 500%float ->
    MenuItem.price b = 1200%float ->
    MenuItem.id a <> MenuItem.id b ->
    getCartTotal [] = 0%float
    /\ (forall cart : list CartItem.t,
          getCartTotal cart =
          sum_numbers
            (map (fun ci => (MenuItem.price (CartItem.menuItem ci)
                             * CartItem.quantity ci)%float) cart))
    /\ (forall (cart : list CartItem.t) (line : CartItem.t),
          getCartTotal (cart ++ [line]) =
          (getCartTotal cart
           + MenuItem.price (CartItem.menuItem line) * CartItem.quantity line)%float)
    /\ getCartTotal (addToCart b 1%float (addToCart a 3%float [])) = 2700%float
    /\ getCartTotal
         (updateCartItemQuantity (MenuItem.id a) 0%float
            (addToCart b 1%float (addToCart a 3%float []))) = 1200%float.
Proof.
  intros a b Ha Hb Hab.
  assert (Eab : JS.eqb (MenuItem.id a) (MenuItem.id b) = false)
    by now apply str_eqb_neq.
  assert (Eba : JS.eqb (MenuItem.id b) (MenuItem.id a) = false)
    by (rewrite str_eqb_sym; exact Eab).
  assert (Hcart : addToCart b 1%float (addToCart a 3%float []) =
                  [CartItem.mk a 3%float None; CartItem.mk b 1%float None]).
  { unfold addToCart. simpl. unfold CartItem.itemId. simpl. now rewrite Eab. }
  split; [reflexivity|]. split; [|split; [|split]].
  - intros cart. apply getCartTotal_sum.
  - intros cart line. unfold getCartTotal. apply getCartTotal_from.
  - rewrite Hcart. unfold getCartTotal. simpl. rewrite Ha, Hb. reflexivity.
  - rewrite Hcart. unfold updateCartItemQuantity.
    change (0 <=? 0)%float with true. cbv iota.
    unfold removeFromCart. simpl. unfold CartItem.itemId. simpl.
    rewrite str_eqb_refl, Eba. simpl.
    unfold getCartTotal. simpl. rewrite Hb. reflexivity.
Qed.

Lemma getCartTotal_accumulates_witness :
  getCartTotal [] = 0%float
  /\ (forall cart : list CartItem.t,
        getCartTotal cart =
        sum_numbers
          (map (fun ci => (MenuItem.price (CartItem.menuItem ci)
                           * CartItem.quantity ci)%float) cart))
  /\ (forall (cart : list CartItem.t) (line : CartItem.t),
        getCartTotal (cart ++ [line]) =
        (getCartTotal cart
         + MenuItem.price (CartItem.menuItem line) * CartItem.quantity line)%float)
  /\ getCartTotal (addToCart Sample.chicken 1%float (addToCart Sample.jollof 3%float []))
     = 2700%float
  /\ getCartTotal
       (updateCartItemQuantity (lit "m1") 0%float
          (addToCart Sample.chicken 1%float (addToCart Sample.jollof 3%float [])))
     = 1200%float.
Proof.
  apply (getCartTotal_accumulates Sample.jollof Sample.chicken).
  - reflexivity.
  - reflexivity.
  - vm_compute. discriminate.
Defined.

(** A number that is at most 0 is below 1. *)
Lemma leb_0_ltb_1 (q : number) : (q <=? 0)%float = true -> (q <? 1)%float = true.
Proof.
  rewrite leb_spec, ltb_spec.
  change (Prim2SF 0) with (S754_zero false).
  change (Prim2SF 1) with (S754_finite false 4503599627370496 (-52)).
  destruct (Prim2SF q) as [s|s| |s m e]; try destruct s; simpl;
    intros H; try reflexivity; try discriminate.
Qed.

(** C9. [addToCart] does not validate its quantity: for every quantity
    [q <= 0], an item absent from the cart gets a new last line carrying
    [q], and an item present in the cart has [q] added to its line.  From
    the empty cart one call thus yields a line whose quantity is below 1,
    and adding 1 and then -1 of an item leaves its line with quantity 0. *)
Theorem addToCart_no_quantity_validation :
  forall (cart : list CartItem.t) (item : MenuItem.t) (q : number),
    (q <=? 0)%float = true ->
    addToCart item q cart =
      (if in_cart (MenuItem.id item) cart
       then map (fun ci =>
                   if JS.eqb (CartItem.itemId ci) (MenuItem.id item)
                   then CartItem.mk (CartItem.menuItem ci)
                                    (CartItem.quantity ci + q)%float
                                    (CartItem.specialInstructions ci)
                   else ci) cart
       else cart ++ [CartItem.mk item q None])
    /\ apply_ops [OpAdd item q] [] = [CartItem.mk item q None]
    /\ (exists line, In line (apply_ops [OpAdd item q] [])
                     /\ (CartItem.quantity line <? 1)%float = true)
    /\ apply_ops [OpAdd item 1%float; OpAdd item (-1)%float] []
       = [CartItem.mk item 0%float None].
Proof.
  intros cart item q Hq. split; [|split; [|split]].
  - unfold addToCart.
    destruct (find _ cart) eqn:F.
    + destruct (in_cart (MenuItem.id item) cart) eqn:I; [reflexivity|].
      apply find_in_cart in I. congruence.
    + apply find_in_cart in F. now rewrite F.
  - reflexivity.
  - exists (CartItem.mk item q None). split; [now left|].
    simpl. now apply leb_0_ltb_1.
  - unfold apply_ops, apply_op, addToCart; simpl.
    unfold CartItem.itemId; simpl. rewrite str_eqb_refl. reflexivity.
Qed.

Lemma addToCart_no_quantity_validation_witness :
  addToCart Sample.sachet (-2)%float Sample.cart2
    = Sample.cart2 ++ [CartItem.mk Sample.sachet (-2)%float None]
  /\ addToCart Sample.jollof (-3)%float Sample.cart2
    = [CartItem.mk Sample.jollof 0%float None; CartItem.mk Sample.chicken 1%float None].
Proof.
  split.
  - apply (addToCart_no_quantity_validation Sample.cart2 Sample.sachet (-2)%float).
    reflexivity.
  - apply (addToCart_no_quantity_validation Sample.cart2 Sample.jollof (-3)%float).
    reflexivity.
Defined.

(** C10. [updateCartItemInstructions] keeps the item ids of the lines and
    their order, every line's menu item and quantity, and [getCartTotal];
    lines of other items are untouched, the line of [itemId] differs at most
    in its note, and when no line has that id the cart is returned as it
    was. *)
Theorem updateCartItemInstructions_frame :
  forall (cart : list CartItem.t) (itemId instructions : jsstring),
    let cart' := updateCartItemInstructions itemId instructions cart in
    cart_ids cart' = cart_ids cart
    /\ map CartItem.menuItem cart' = map CartItem.menuItem cart
    /\ map CartItem.quantity cart' = map CartItem.quantity cart
    /\ getCartTotal cart' = getCartTotal cart
    /\ Forall2 (fun old new =>
                  CartItem.menuItem new = CartItem.menuItem old
                  /\ CartItem.quantity new = CartItem.quantity old
                  /\ (CartItem.itemId old <> itemId -> new = old))
               cart cart'
    /\ (in_cart itemId cart = false -> cart' = cart).
Proof.
  intros cart itemId instructions cart'. subst cart'.
  unfold updateCartItemInstructions.
  repeat split.
  - apply cart_ids_map. intros ci.
    now destruct (JS.eqb (CartItem.itemId ci) itemId).
  - rewrite map_map. apply map_ext. intros ci.
    now destruct (JS.eqb (CartItem.itemId ci) itemId).
  - rewrite map_map. apply map_ext. intros ci.
    now destruct (JS.eqb (CartItem.itemId ci) itemId).
  - apply getCartTotal_ext. rewrite map_map. apply map_ext. intros ci.
    now destruct (JS.eqb (CartItem.itemId ci) itemId).
  - induction cart as [|ci cart IH]; simpl; constructor; [|exact IH].
    destruct (JS.eqb (CartItem.itemId ci) itemId) eqn:E; simpl; repeat split; auto.
    intros Hne. apply str_eqb_eq in E. contradiction.
  - intros Habs. induction cart as [|ci cart IH]; simpl; [reflexivity|].
    unfold in_cart in Habs. simpl in Habs.
    apply orb_false_iff in Habs as [E Hrest].
    rewrite E. f_equal. apply IH. exact Hrest.
Qed.

Lemma updateCartItemInstructions_frame_witness :
  updateCartItemInstructions (lit "m9") (lit "no pepper") Sample.cart2 = Sample.cart2
  /\ getCartTotal (updateCartItemInstructions (lit "m1") (lit "no pepper") Sample.cart2)
     = getCartTotal Sample.cart2.
Proof.
  split.
  - apply (updateCartItemInstructions_frame Sample.cart2 (lit "m9") (lit "no pepper")).
    reflexivity.
  - apply (updateCartItemInstructions_frame Sample.cart2 (lit "m1") (lit "no pepper")).
Defined.

End CartFacts.

(* ================================================================== *)
(** ** Running handlers *)

(** Unfolds the monad's operations so that a handler run reduces to its
    completion, final state and events. *)
Ltac run_handler :=
  unfold completion, final, events, bind, try_finally, try_catch, await,
    modify, emit, ret, throw; simpl.

(* ================================================================== *)
(** ** Checkout ([handleCheckout]) *)

Section Checkout.

Import CartPage.

Example checkout_success_events :
  events (click_checkout Sample.api_up
            (Sample.cart_page (Some Sample.table1) Sample.cart2))
  = [CallGetPaymentMethods;
     CallCreateOrder
       (CreateOrderRequest.mk (lit "t1")
          [CreateOrderItem.mk (lit "m1") 3%float None;
           CreateOrderItem.mk (lit "m2") 1%float None]
          cash None);
     SetCurrentOrder (Sample.order_with pending);
     ClearCart;
     Navigate (lit "/payment") (Some (lit "o1"))].
Proof. reflexivity. Qed.

(** C1, as the specification states it, fails.  A click on an empty cart
    signals no failure at all: the handler returns normally and the error
    slot stays empty.  And with an unbound table the payment methods are
    requested before the handler fails. *)
Lemma checkout_guard_is_silent :
  let empty := click_checkout Sample.api_up (Sample.cart_page (Some Sample.table1) []) in
  let unbound := click_checkout Sample.api_up (Sample.cart_page None Sample.cart2) in
  ~ signals_failure (completion empty) (error (final empty))
  /\ api_calls (events unbound) = [CallGetPaymentMethods].
Proof.
  split.
  - intros [[e He]|He].
    + vm_compute in He. discriminate.
    + apply He. reflexivity.
  - reflexivity.
Qed.

(** C1, amended.  With an empty cart [handleCheckout] returns at once: it
    completes normally, leaves the page and the session as they were
    (no error is recorded) and sends nothing to the collaborator.  With a
    non-empty cart and an unbound table it requests the payment methods,
    never requests the order creation, leaves cart and active order as they
    were, records an error message and completes normally. *)
Theorem handleCheckout_guards :
  forall (api : Api) (s : State),
    (OrderContext.cartItems (ctx s) = [] ->
       click_checkout api s = (Normal tt, s, []))
    /\ (OrderContext.cartItems (ctx s) <> [] ->
        OrderContext.table (ctx s) = None ->
        let r := click_checkout api s in
        completion r = Normal tt
        /\ events r = [CallGetPaymentMethods]
        /\ ctx (final r) = ctx s
        /\ error (final r) <> None
        /\ loading (final r) = false).
Proof.
  intros api [[table cart order methods selected] ld err instr]; simpl.
  split.
  - intros ->. reflexivity.
  - intros Hne ->. destruct cart as [|line cart]; [contradiction|].
    unfold click_checkout, handleCheckout. simpl.
    unfold setLoading, setError. run_handler.
    destruct (getPaymentMethods api) as [ms|e]; simpl;
      repeat split; discriminate.
Qed.

Lemma handleCheckout_guards_witness :
  click_checkout Sample.api_up (Sample.cart_page (Some Sample.table1) [])
    = (Normal tt, Sample.cart_page (Some Sample.table1) [], [])
  /\ events (click_checkout Sample.api_up (Sample.cart_page None Sample.cart2))
    = [CallGetPaymentMethods].
Proof.
  split.
  - apply (handleCheckout_guards Sample.api_up (Sample.cart_page (Some Sample.table1) [])).
    reflexivity.
  - apply (handleCheckout_guards Sample.api_up (Sample.cart_page None Sample.cart2)).
    + vm_compute. discriminate.
    + reflexivity.
Defined.

(** C2. A checkout from a non-empty cart with a bound table: when the order
    creation succeeds the cart is cleared exactly once and is empty, the
    session's active order is the created order (so its id is the created
    order's id) and the page moves on to payment; when it fails (or is never
    sent because the payment methods could not be fetched) the session —
    cart and active order included — is exactly as before, the cart is never
    cleared, nothing is navigated and an error message is recorded. *)
Theorem handleCheckout_commit_or_keep :
  forall (api : Api) (s : State) (t : Table.t),
    OrderContext.cartItems (ctx s) <> [] ->
    OrderContext.table (ctx s) = Some t ->
    let r := click_checkout api s in
    match order_creation api s t with
    | Resolved order =>
        completion r = Normal tt
        /\ OrderContext.cartItems (ctx (final r)) = []
        /\ cart_clears (events r) = 1
        /\ OrderContext.currentOrder (ctx (final r)) = Some order
        /\ option_map Order.id (OrderContext.currentOrder (ctx (final r)))
           = Some (Order.id order)
        /\ In (Navigate (lit "/payment") (Some (Order.id order))) (events r)
        /\ error (final r) = None
    | Rejected e =>
        completion r = Normal tt
        /\ ctx (final r) = ctx s
        /\ cart_clears (events r) = 0
        /\ (forall e', In e' (events r) -> is_api_call e' = true)
        /\ error (final r) = Some (or_else (message e) (lit "Failed to create order"))
    end.
Proof.
  intros api [[table cart order0 methods selected] ld err instr] t; simpl.
  intros Hne ->. destruct cart as [|line cart]; [contradiction|].
  unfold order_creation, click_checkout, handleCheckout. simpl.
  unfold setCurrentOrder, clearCart, setLoading, setError. run_handler.
  destruct (getPaymentMethods api) as [ms|e]; simpl.
  - destruct (createOrder api _) as [order|e]; simpl.
    + repeat split; auto.
      do 4 right. now left.
    + repeat split; auto.
      intros e' [<-|[<-|[]]]; reflexivity.
  - repeat split; auto.
    intros e' [<-|[]]; reflexivity.
Qed.

Lemma handleCheckout_commit_or_keep_witness :
  OrderContext.cartItems
    (ctx (final (click_checkout Sample.api_up
                   (Sample.cart_page (Some Sample.table1) Sample.cart2)))) = []
  /\ ctx (final (click_checkout Sample.api_refusing
                   (Sample.cart_page (Some Sample.table1) Sample.cart2)))
     = Sample.ctx_with (Some Sample.table1) Sample.cart2.
Proof.
  split.
  - apply (handleCheckout_commit_or_keep Sample.api_up
             (Sample.cart_page (Some Sample.table1) Sample.cart2) Sample.table1).
    + vm_compute. discriminate.
    + reflexivity.
  - apply (handleCheckout_commit_or_keep Sample.api_refusing
             (Sample.cart_page (Some Sample.table1) Sample.cart2) Sample.table1).
    + vm_compute. discriminate.
    + reflexivity.
Defined.

End Checkout.

(* ================================================================== *)
(** ** Payment ([handleInitiatePayment], [handleUploadReceipt]) *)

Section PaymentFlow.

Import PaymentPage.

(** C6, as the specification states it, fails: uploading a receipt made of
    three blanks signals no failure, the handler returns normally and the
    error slot stays empty. *)
Lemma blank_receipt_upload_is_silent :
  let r := click_upload Sample.api_up Sample.awaiting_receipt_blank in
  forallb is_whitespace (receiptUrl Sample.awaiting_receipt_blank) = true
  /\ ~ signals_failure (completion r) (error (final r)).
Proof.
  split; [reflexivity|].
  intros [[e He]|He].
  - vm_compute in He. discriminate.
  - apply He. reflexivity.
Qed.

(** C6, amended.  When the receipt reference is empty or made of white
    space only, [handleUploadReceipt] returns at once: it completes
    normally, leaves the page as it was (no error is recorded) and sends
    nothing to the collaborator. *)
Theorem handleUploadReceipt_blank_noop :
  forall (api : Api) (s : State),
    forallb is_whitespace (receiptUrl s) = true ->
    click_upload api s = (Normal tt, s, [])
    /\ api_calls (events (click_upload api s)) = [].
Proof.
  intros api s Hblank.
  assert (E : click_upload api s = (Normal tt, s, [])).
  { unfold click_upload, handleUploadReceipt.
    apply trim_blank in Hblank. rewrite Hblank. simpl.
    destruct (paymentId s); reflexivity. }
  split; [exact E|]. now rewrite E.
Qed.

Lemma handleUploadReceipt_blank_noop_witness :
  click_upload Sample.api_up Sample.awaiting_receipt_blank
    = (Normal tt, Sample.awaiting_receipt_blank, [])
  /\ api_calls (events (click_upload Sample.api_up Sample.awaiting_receipt_blank)) = [].
Proof.
  apply (handleUploadReceipt_blank_noop Sample.api_up Sample.awaiting_receipt_blank).
  reflexivity.
Defined.

(** One upload attempt: the payment id and the awaiting-receipt flag are
    kept, and the page navigates to the order status exactly when the
    attempt succeeds. *)
Lemma upload_attempt_step (api : Api) (text : jsstring) (s : State) :
  let r := click_upload api (setReceiptUrl text s) in
  paymentId (final r) = paymentId s
  /\ paymentInitiated (final r) = paymentInitiated s
  /\ completes_checkout (events r) = upload_succeeds s (text, api).
Proof.
  unfold click_upload, handleUploadReceipt, upload_succeeds. simpl.
  destruct (paymentId s) as [pid|] eqn:P; [|simpl; rewrite P; auto].
  destruct (truthy (trim text)); simpl; [|rewrite P; auto].
  destruct (truthy pid); simpl; [|rewrite P; auto].
  unfold setUploading, setError. run_handler.
  destruct (uploadTransferReceipt api _) as [p|e]; simpl; rewrite P;
    repeat split.
Qed.

Lemma existsb_pointwise {A} (f g : A -> bool) (l : list A) :
  (forall a, f a = g a) -> existsb f l = existsb g l.
Proof.
  intros H. induction l as [|a l IH]; simpl; [reflexivity|].
  now rewrite H, IH.
Qed.

Lemma upload_attempts_await (attempts : list (jsstring * Api)) (s : State) :
  let u := upload_attempts attempts s in
  paymentInitiated (fst u) = paymentInitiated s
  /\ completes_checkout (snd u) = existsb (upload_succeeds s) attempts.
Proof.
  revert s. induction attempts as [|[text api] rest IH]; intros s; simpl.
  - split; reflexivity.
  - pose proof (upload_attempt_step api text s) as Hstep. simpl in Hstep.
    destruct (click_upload api (setReceiptUrl text s)) as [[c s1] t1] eqn:E.
    unfold final, events in Hstep. simpl in Hstep.
    destruct Hstep as [Hpid [Hinit Hnav]].
    specialize (IH s1). simpl in IH.
    destruct (upload_attempts rest s1) as [s2 t2]. simpl in *.
    destruct IH as [IH1 IH2]. split; [congruence|].
    unfold completes_checkout in *. rewrite existsb_app, Hnav, IH2.
    f_equal. apply existsb_pointwise. intros [text' api'].
    unfold upload_succeeds. now rewrite Hpid.
Qed.

(** C5. A successful payment initiation with the selected method, on a page
    not yet awaiting a receipt: for [cash] and [pos] the page navigates to
    the order status at once and never awaits a receipt; for [transfer] it
    awaits a receipt without navigating, and through any series of upload
    attempts it keeps awaiting and has completed checkout exactly when one
    of the attempts succeeded. *)
Theorem payment_branches_on_method :
  forall (api : Api) (s : State) (m : PaymentMethodInfo.t) (oid : jsstring)
         (p : Payment.t),
    OrderContext.selectedPaymentMethod (ctx s) = Some m ->
    orderId s = Some oid ->
    truthy oid = true ->
    paymentInitiated s = false ->
    initiatePayment api (InitiatePaymentRequest.mk oid (PaymentMethodInfo.type m))
      = Resolved p ->
    let r := click_initiate api s in
    match PaymentMethodInfo.type m with
    | cash | pos =>
        completes_checkout (events r) = true
        /\ paymentInitiated (final r) = false
    | transfer =>
        paymentInitiated (final r) = true
        /\ completes_checkout (events r) = false
        /\ paymentId (final r) = Some (Payment.id p)
        /\ forall attempts : list (jsstring * Api),
             let u := upload_attempts attempts (final r) in
             paymentInitiated (fst u) = true
             /\ completes_checkout (snd u)
                = existsb (upload_succeeds (final r)) attempts
    end.
Proof.
  intros api s m oid p Hsel Hoid Htruthy Hfresh Hok r.
  assert (Hr : r = click_initiate api s) by reflexivity. clearbody r.
  unfold click_initiate, handleInitiatePayment in Hr.
  rewrite Hsel, Hoid, Htruthy in Hr. simpl in Hr.
  unfold bind, try_finally, try_catch, await, setLoading, setError,
    setPaymentId, setPaymentInitiated, modify, emit, ret, throw in Hr.
  simpl in Hr. rewrite Hok in Hr. simpl in Hr.
  destruct (PaymentMethodInfo.type m); simpl in Hr; subst r;
    unfold completion, final, events; simpl.
  - split; [reflexivity|exact Hfresh].
  - split; [reflexivity|exact Hfresh].
  - repeat split.
    + pose proof (upload_attempts_await attempts
                    (mk (ctx s) (locationOrderId s) false None true
                        (Some (Payment.id p)) (receiptUrl s) (uploading s))) as H.
      simpl in H. apply H.
    + pose proof (upload_attempts_await attempts
                    (mk (ctx s) (locationOrderId s) false None true
                        (Some (Payment.id p)) (receiptUrl s) (uploading s))) as H.
      simpl in H. apply H.
Qed.

Lemma payment_branches_on_method_witness :
  (completes_checkout
     (events (click_initiate Sample.api_up (Sample.payment_page Sample.method_cash))) = true
   /\ paymentInitiated
        (final (click_initiate Sample.api_up (Sample.payment_page Sample.method_cash)))
      = false)
  /\ paymentInitiated
       (final (click_initiate Sample.api_up (Sample.payment_page Sample.method_transfer)))
     = true.
Proof.
  split.
  - apply (payment_branches_on_method Sample.api_up
             (Sample.payment_page Sample.method_cash) Sample.method_cash
             (lit "o1") Sample.payment1); reflexivity.
  - apply (payment_branches_on_method Sample.api_up
             (Sample.payment_page Sample.method_transfer) Sample.method_transfer
             (lit "o1") Sample.payment1); reflexivity.
Defined.

End PaymentFlow.

(* ================================================================== *)
(** ** Order tracking ([OrderStatus]) *)

Section Tracking.

Import OrderStatusPage.

Example mount_without_order_id :
  log (mount None None) = [Navigate (lit "/") None]
  /\ interval (mount None None) = false.
Proof. split; reflexivity. Qed.

Example mount_sends_first_request :
  log (mount (Some (lit "o1")) None) = [CallGetOrderById (lit "o1")]
  /\ interval (mount (Some (lit "o1")) None) = true
  /\ inflight (mount (Some (lit "o1")) None) = 1.
Proof. repeat split. Qed.

(** An answer with another order id, on a page that has no id from the
    navigation, re-runs the effect: the timer is re-armed and the new id is
    requested at once; an answer without an id sends the page to the start
    page and leaves no timer. *)
Example effect_reruns_for_new_order_id :
  let other (i : jsstring) :=
    Order.mk i (lit "ORD-002") (lit "t1") pending 100%float (lit "cash")
             payment_pending None [] (lit "2025-01-02") (lit "2025-01-02") in
  (exists s',
      run [Settle (Resolved (other (lit "o2")))]
          (mount None (Some (Sample.order_with pending))) = Some s'
      /\ log s' = [CallGetOrderById (lit "o1"); CallGetOrderById (lit "o2")]
      /\ interval s' = true
      /\ inflight s' = 1)
  /\ (exists s',
         run [Settle (Resolved (other []))]
             (mount None (Some (Sample.order_with pending))) = Some s'
         /\ log s' = [CallGetOrderById (lit "o1"); Navigate (lit "/") None]
         /\ interval s' = false).
Proof. split; eexists; repeat split. Qed.

Lemma calls_loadOrder_request (s : State) :
  calls (loadOrder_request s) =
  calls s ++ [CallGetOrderById
                (match orderId s with Some i => i | None => lit "undefined" end)].
Proof. unfold calls, loadOrder_request. simpl. now rewrite filter_app. Qed.

Lemma same_orderId_refl (a : option jsstring) : same_orderId a a = true.
Proof. destruct a as [x|]; simpl; [apply str_eqb_refl|reflexivity]. Qed.

Lemma same_orderId_eq (a b : option jsstring) : same_orderId a b = true -> a = b.
Proof.
  destruct a as [x|], b as [y|]; simpl; intros H; try discriminate; [|reflexivity].
  apply str_eqb_eq in H. now subst.
Qed.

(** What a re-run of the effect leaves alone. *)
Lemma effect_keeps (s : State) :
  order (effect s) = order s
  /\ currentOrder (effect s) = currentOrder s
  /\ locationOrderId (effect s) = locationOrderId s
  /\ mounted (effect s) = mounted s.
Proof.
  unfold effect. destruct (negb (truthy_opt (orderId s))); repeat split.
Qed.

Lemma rerender_keeps (before after : State) :
  order (rerender before after) = order after
  /\ currentOrder (rerender before after) = currentOrder after
  /\ locationOrderId (rerender before after) = locationOrderId after
  /\ mounted (rerender before after) = mounted after.
Proof.
  unfold rerender.
  destruct (mounted after && negb (same_orderId (orderId before) (orderId after)));
    [|repeat split].
  apply (effect_keeps (cleanup after)).
Qed.

(** Without the component nothing is rendered again. *)
Lemma loadOrder_settle_unmounted (r : Settled Order.t) (s : State) :
  mounted s = false ->
  log (loadOrder_settle r s) = log s
  /\ interval (loadOrder_settle r s) = interval s
  /\ mounted (loadOrder_settle r s) = false.
Proof.
  intros Hm. destruct r as [orderData|e]; simpl.
  - unfold rerender. simpl. rewrite Hm. simpl. repeat split; auto.
  - repeat split; auto.
Qed.

(** Once the page is unmounted, whatever still happens sends nothing. *)
Lemma unmounted_run_silent (acts : list Action) :
  forall s s', mounted s = false -> interval s = false -> run acts s = Some s' ->
               calls s' = calls s /\ interval s' = false /\ mounted s' = false.
Proof.
  induction acts as [|a acts IH]; intros s s' Hm Hoff Hrun; simpl in Hrun.
  - inversion Hrun; subst. auto.
  - destruct a as [|r|]; simpl in Hrun.
    + rewrite Hoff in Hrun. discriminate.
    + destruct (inflight s) as [|n]; [discriminate|].
      destruct (loadOrder_settle_unmounted r s Hm) as [Hlog [Hint Hm']].
      destruct (IH _ _ Hm' (eq_trans Hint Hoff) Hrun) as [Hc Hi].
      split; [|exact Hi]. rewrite Hc. unfold calls. now rewrite Hlog.
    + rewrite Hm in Hrun. discriminate.
Qed.

(** The orders held after a request settled. *)
Lemma loadOrder_settle_snapshots (r : Settled Order.t) (s : State) :
  order (loadOrder_settle r s)
    = match r with Resolved orderData => Some orderData | Rejected _ => order s end
  /\ currentOrder (loadOrder_settle r s)
    = match r with Resolved orderData => Some orderData | Rejected _ => currentOrder s end
  /\ locationOrderId (loadOrder_settle r s) = locationOrderId s.
Proof.
  destruct r as [orderData|e]; simpl; [|repeat split].
  match goal with
  | |- context [rerender s ?after] =>
      destruct (rerender_keeps s after) as [Ho [Hc [Hl _]]]
  end.
  rewrite Ho, Hc, Hl. repeat split.
Qed.

(** The orders held after a run. *)
Lemma run_snapshots (acts : list Action) :
  forall s s', run acts s = Some s' ->
               order s' = last_snapshot acts (order s)
               /\ currentOrder s' = last_snapshot acts (currentOrder s)
               /\ locationOrderId s' = locationOrderId s.
Proof.
  induction acts as [|a acts IH]; intros s s' Hrun; simpl in Hrun.
  - inversion Hrun; subst. repeat split.
  - destruct a as [|r|]; simpl in Hrun.
    + destruct (interval s); [|discriminate].
      apply IH in Hrun. exact Hrun.
    + destruct (inflight s) as [|n]; [discriminate|].
      apply IH in Hrun.
      destruct (loadOrder_settle_snapshots r s) as [Ho [Hc Hl]].
      rewrite Ho, Hc, Hl in Hrun. simpl.
      destruct r as [orderData|e]; exact Hrun.
    + destruct (mounted s); [|discriminate].
      apply IH in Hrun. exact Hrun.
Qed.

(** A resolved request leaves a mounted page with its timer registered and
    a non-empty order id, when the page has an id from the navigation or the
    order received carries one. *)
Lemma settle_keeps_timer (orderData : Order.t) (s : State) :
  mounted s = true -> interval s = true -> truthy_opt (orderId s) = true ->
  truthy_opt (locationOrderId s) || truthy (Order.id orderData) = true ->
  let s' := loadOrder_settle (Resolved orderData) s in
  mounted s' = true /\ interval s' = true /\ truthy_opt (orderId s') = true.
Proof.
  intros Hm Hon Hid Hans. simpl. unfold rerender. simpl. rewrite Hm. simpl.
  set (after := mk (locationOrderId s) (Some orderData) (Some orderData) false
                   (error s) true (interval s) (pred (inflight s)) (log s)).
  destruct (same_orderId (orderId s) (orderId after)) eqn:E; simpl.
  - apply same_orderId_eq in E. rewrite <- E. repeat split; assumption.
  - assert (Hloc : truthy_opt (locationOrderId s) = false).
    { destruct (truthy_opt (locationOrderId s)) eqn:L; [|reflexivity].
      unfold orderId in E. simpl in E. rewrite L in E.
      rewrite same_orderId_refl in E. discriminate. }
    rewrite Hloc in Hans. simpl in Hans.
    unfold effect, orderId. simpl. rewrite Hloc. simpl. rewrite Hans. simpl.
    rewrite Hloc. simpl. repeat split. exact Hans.
Qed.

(** The timer of a mounted page with an order id is registered until the
    page is unmounted, and never again afterwards. *)
Lemma run_keeps_timer (acts : list Action) :
  forall s s',
    mounted s = true -> interval s = true -> truthy_opt (orderId s) = true ->
    truthy_opt (locationOrderId s) || answers_have_id acts = true ->
    run acts s = Some s' ->
    interval s' = no_unmount acts
    /\ mounted s' = no_unmount acts
    /\ (no_unmount acts = true -> truthy_opt (orderId s') = true).
Proof.
  induction acts as [|a acts IH]; intros s s' Hm Hon Hid Hans Hrun; simpl in Hrun.
  - inversion Hrun; subst. simpl. auto.
  - assert (Hrest : truthy_opt (locationOrderId s) || answers_have_id acts = true).
    { destruct (truthy_opt (locationOrderId s)); [reflexivity|].
      simpl in Hans |- *. unfold answers_have_id in Hans. simpl in Hans.
      apply andb_true_iff in Hans. apply Hans. }
    destruct a as [|r|]; simpl in Hrun.
    + rewrite Hon in Hrun.
      apply (IH (loadOrder_request s) s'); auto.
    + destruct (inflight s) as [|n]; [discriminate|].
      destruct r as [orderData|e].
      * assert (Hone : truthy_opt (locationOrderId s) || truthy (Order.id orderData) = true).
        { destruct (truthy_opt (locationOrderId s)); [reflexivity|].
          simpl in Hans |- *. unfold answers_have_id in Hans. simpl in Hans.
          apply andb_true_iff in Hans. apply Hans. }
        destruct (settle_keeps_timer orderData s Hm Hon Hid Hone) as [Hm' [Hon' Hid']].
        assert (Hloc : locationOrderId (loadOrder_settle (Resolved orderData) s)
                       = locationOrderId s)
          by apply (loadOrder_settle_snapshots (Resolved orderData) s).
        apply (IH _ s' Hm' Hon' Hid'); [now rewrite Hloc|exact Hrun].
      * apply (IH (loadOrder_settle (Rejected e) s) s'); auto.
    + rewrite Hm in Hrun.
      destruct (unmounted_run_silent acts (unmount s) s' eq_refl eq_refl Hrun)
        as [_ [Hi Hm']].
      simpl. repeat split; [exact Hi|exact Hm'|discriminate].
Qed.

(** C3, as the specification states it, fails: a page mounted for order
    "o1" learns that the order is ready, a terminal status, and the next
    timer tick still sends a request. *)
Lemma polling_continues_after_terminal :
  exists s1 s2,
    run [Settle (Resolved (Sample.order_with ready))] (mount (Some (lit "o1")) None)
      = Some s1
    /\ tracked_terminal s1 = true
    /\ step Tick s1 = Some s2
    /\ calls s1 = [CallGetOrderById (lit "o1")]
    /\ calls s2 = [CallGetOrderById (lit "o1"); CallGetOrderById (lit "o1")].
Proof.
  eexists. eexists. repeat split.
Qed.

(** C3, amended.  A status page mounted with an order id keeps its timer
    registered through everything that happens before it is unmounted —
    ticks and requests settling, whatever the status of the orders received,
    terminal statuses included — as long as the page has an id from the
    navigation or every order received carries a non-empty id.  While it is
    mounted every tick sends one [getOrderById] request for the page's
    current order id.  Polling stops only when the page is unmounted: then
    the timer is cleared for good, and in everything that can still happen
    (pending requests settling) no further request is sent. *)
Theorem polling_stops_only_on_unmount :
  forall (loc : option jsstring) (ctxOrder : option Order.t)
         (acts : list Action) (s' : State),
    truthy_opt (orderId (mount loc ctxOrder)) = true ->
    truthy_opt loc || answers_have_id acts = true ->
    run acts (mount loc ctxOrder) = Some s' ->
    interval s' = no_unmount acts
    /\ order s' = last_snapshot acts ctxOrder
    /\ orderId s' = (if truthy_opt loc then loc
                     else option_map Order.id (last_snapshot acts ctxOrder))
    /\ (no_unmount acts = true ->
        exists oid,
          orderId s' = Some oid
          /\ truthy oid = true
          /\ step Tick s' = Some (loadOrder_request s')
          /\ calls (loadOrder_request s') = calls s' ++ [CallGetOrderById oid])
    /\ (forall (more : list Action) (s1 s'' : State),
          step Unmount s' = Some s1 ->
          run more s1 = Some s'' ->
          calls s'' = calls s' /\ interval s'' = false)
    /\ (no_unmount acts = false ->
        forall (more : list Action) (s'' : State),
          run more s' = Some s'' ->
          calls s'' = calls s' /\ interval s'' = false).
Proof.
  intros loc ctxOrder acts s' Hid Hans Hrun.
  assert (Hmount : mounted (mount loc ctxOrder) = true
                   /\ interval (mount loc ctxOrder) = true
                   /\ locationOrderId (mount loc ctxOrder) = loc
                   /\ order (mount loc ctxOrder) = ctxOrder
                   /\ currentOrder (mount loc ctxOrder) = ctxOrder).
  { unfold mount, effect in *.
    destruct (truthy_opt
                (orderId (mk loc ctxOrder ctxOrder true None true false 0 [])))
      eqn:E; simpl in *; [repeat split|].
    unfold orderId in *. simpl in *. congruence. }
  destruct Hmount as [Hm [Hon [Hloc [Hord Hcur]]]].
  assert (Hans' : truthy_opt (locationOrderId (mount loc ctxOrder))
                  || answers_have_id acts = true) by now rewrite Hloc.
  destruct (run_keeps_timer acts _ s' Hm Hon Hid Hans' Hrun) as [Hi [Hm' Hid']].
  destruct (run_snapshots acts _ s' Hrun) as [Ho [Hc Hl]].
  rewrite Hord in Ho. rewrite Hcur in Hc. rewrite Hloc in Hl.
  assert (Hoid : orderId s' = (if truthy_opt loc then loc
                               else option_map Order.id (last_snapshot acts ctxOrder))).
  { unfold orderId. now rewrite Hl, Hc. }
  split; [exact Hi|]. split; [exact Ho|]. split; [exact Hoid|].
  split; [|split].
  - intros Hno. specialize (Hid' Hno).
    destruct (orderId s') as [oid|] eqn:E; [|discriminate].
    exists oid. split; [reflexivity|]. split; [exact Hid'|].
    simpl. rewrite Hi, Hno. split; [reflexivity|].
    rewrite calls_loadOrder_request. now rewrite E.
  - intros more s1 s'' Hun Hmore. simpl in Hun.
    destruct (mounted s'); [|discriminate]. inversion Hun; subst s1.
    destruct (unmounted_run_silent more (unmount s') s'' eq_refl eq_refl Hmore)
      as [Hcalls [Hint _]].
    split; [exact Hcalls|exact Hint].
  - intros Hno more s'' Hmore.
    rewrite Hno in Hi, Hm'.
    destruct (unmounted_run_silent more s' s'' Hm' Hi Hmore) as [Hcalls [Hint _]].
    split; [exact Hcalls|exact Hint].
Qed.

Lemma polling_stops_only_on_unmount_witness :
  exists s',
    run [Settle (Resolved (Sample.order_with ready)); Tick;
         Settle (Resolved (Sample.order_with completed))]
        (mount None (Some (Sample.order_with pending))) = Some s'
    /\ interval s' = true
    /\ order s' = Some (Sample.order_with completed)
    /\ orderId s' = Some (lit "o1").
Proof.
  eexists. split; [reflexivity|].
  destruct (polling_stops_only_on_unmount None (Some (Sample.order_with pending))
              [Settle (Resolved (Sample.order_with ready)); Tick;
               Settle (Resolved (Sample.order_with completed))]
              _ eq_refl eq_refl eq_refl) as [Hi [Ho [Hoid _]]].
  split; [exact Hi|]. split; [exact Ho|exact Hoid].
Defined.

(** C4, as the specification states it, fails: when the order is completed
    the last step is marked completed although the status is not strictly
    later than that step. *)
Lemma completed_step_marked_completed :
  exists st, In st steps
             /\ isCompleted completed st = true
             /\ ~ strictly_later completed (step_status st).
Proof.
  exists (mkStep completed (lit "Completed")). split; [|split].
  - simpl. tauto.
  - reflexivity.
  - unfold strictly_later. simpl. lia.
Qed.

(** C4, amended.  A step is marked completed exactly when the current
    status is strictly later in pending < accepted < preparing < ready <
    completed, or when the step is the last one and the order is completed.
    A step is marked active exactly when it is the step of the current
    status, so exactly one of the five steps is active for each status of
    the sequence; for [rejected] no step is active and none is completed. *)
Theorem progress_checklist :
  forall (current : OrderStatus),
    (forall st : Step,
        (isCompleted current st = true <->
           strictly_later current (step_status st)
           \/ (current = completed /\ step_status st = completed))
        /\ (isActive current st = true <-> current = step_status st))
    /\ List.length (filter (isActive current) steps)
       = (if status_eqb current rejected then 0 else 1)
    /\ Forall (fun st => isCompleted rejected st = false
                         /\ isActive rejected st = false) steps.
Proof.
  intros current. split; [|split].
  - intros [k l]. unfold isCompleted, isActive, strictly_later. simpl.
    destruct current, k; simpl; split; split; intros H;
      try reflexivity; try discriminate; try lia;
      try (left; lia); try (right; split; reflexivity);
      try (destruct H as [H|[H1 H2]]; [lia|discriminate]).
  - destruct current; reflexivity.
  - unfold steps. repeat constructor.
Qed.

End Tracking.

(* ================================================================== *)
(** ** More on the cart: lookups, removal, the menu page handlers *)

Section CartLookups.

Import OrderContext.
Import MenuPage.

Lemma find_line_none (k : jsstring) (cart : list CartItem.t) :
  find_line k cart = None <-> in_cart k cart = false.
Proof.
  unfold find_line, in_cart. induction cart as [|ci cart IH]; simpl; [tauto|].
  destruct (JS.eqb (CartItem.itemId ci) k); simpl; [|exact IH].
  split; discriminate.
Qed.

(** Looking a key up after the lines were rewritten without touching their
    keys. *)
Lemma find_line_map (f : CartItem.t -> CartItem.t) (k : jsstring) (cart : list CartItem.t) :
  (forall ci, CartItem.itemId (f ci) = CartItem.itemId ci) ->
  find_line k (map f cart) = option_map f (find_line k cart).
Proof.
  intros Hf. unfold find_line. induction cart as [|ci cart IH]; simpl; [reflexivity|].
  rewrite Hf. destruct (JS.eqb (CartItem.itemId ci) k); [reflexivity|exact IH].
Qed.

Lemma find_line_snoc (k : jsstring) (cart : list CartItem.t) (line : CartItem.t) :
  find_line k (cart ++ [line]) =
  match find_line k cart with
  | Some ci => Some ci
  | None => if JS.eqb (CartItem.itemId line) k then Some line else None
  end.
Proof.
  unfold find_line. induction cart as [|ci cart IH]; simpl; [reflexivity|].
  destruct (JS.eqb (CartItem.itemId ci) k); [reflexivity|exact IH].
Qed.

Lemma find_line_remove (i k : jsstring) (cart : list CartItem.t) :
  find_line k (removeFromCart i cart) =
  if JS.eqb k i then None else find_line k cart.
Proof.
  unfold find_line, removeFromCart.
  induction cart as [|ci cart IH]; simpl.
  - now destruct (JS.eqb k i).
  - destruct (JS.eqb (CartItem.itemId ci) i) eqn:Ei; simpl.
    + rewrite IH. destruct (JS.eqb k i) eqn:Ek; [reflexivity|].
      destruct (JS.eqb (CartItem.itemId ci) k) eqn:Ec; [|reflexivity].
      apply str_eqb_eq in Ei, Ec. subst. rewrite str_eqb_refl in Ek. discriminate.
    + destruct (JS.eqb (CartItem.itemId ci) k) eqn:Ec.
      * destruct (JS.eqb k i) eqn:Ek; [|reflexivity].
        apply str_eqb_eq in Ek, Ec. subst. rewrite str_eqb_refl in Ei. discriminate.
      * exact IH.
Qed.

Lemma removeFromCart_absent (i : jsstring) (cart : list CartItem.t) :
  in_cart i cart = false -> removeFromCart i cart = cart.
Proof.
  unfold in_cart, removeFromCart.
  induction cart as [|ci cart IH]; simpl; [reflexivity|].
  intros H. apply orb_false_iff in H as [E Hrest].
  rewrite E. simpl. f_equal. now apply IH.
Qed.

Lemma in_cart_remove (i : jsstring) (cart : list CartItem.t) :
  in_cart i (removeFromCart i cart) = false.
Proof.
  apply find_line_none. rewrite find_line_remove. now rewrite str_eqb_refl.
Qed.

(** X1. [removeFromCart] deletes the line of its item and nothing else:
    afterwards the item is not found, every other item is found as before,
    removing again changes nothing, and a cart without the item is returned
    as it was. *)
Theorem removeFromCart_deletes_one_key :
  forall (i : jsstring) (cart : list CartItem.t),
    (forall k : jsstring,
        find_line k (removeFromCart i cart) =
        if JS.eqb k i then None else find_line k cart)
    /\ removeFromCart i (removeFromCart i cart) = removeFromCart i cart
    /\ (in_cart i cart = false -> removeFromCart i cart = cart).
Proof.
  intros i cart. split; [|split].
  - intros k. apply find_line_remove.
  - apply removeFromCart_absent. apply in_cart_remove.
  - apply removeFromCart_absent.
Qed.

Lemma removeFromCart_deletes_one_key_witness :
  removeFromCart (lit "m9") Sample.cart2 = Sample.cart2
  /\ find_line (lit "m2") (removeFromCart (lit "m1") Sample.cart2)
     = Some (CartItem.mk Sample.chicken 1%float None).
Proof.
  split.
  - apply (removeFromCart_deletes_one_key (lit "m9") Sample.cart2). reflexivity.
  - exact (proj1 (removeFromCart_deletes_one_key (lit "m1") Sample.cart2) (lit "m2")).
Defined.

Lemma removeFromCart_map (f : CartItem.t -> CartItem.t) (i : jsstring)
  (cart : list CartItem.t) :
  (forall ci, CartItem.itemId (f ci) = CartItem.itemId ci) ->
  (forall ci, JS.eqb (CartItem.itemId ci) i = false -> f ci = ci) ->
  removeFromCart i (map f cart) = removeFromCart i cart.
Proof.
  intros Hkey Hother. unfold removeFromCart.
  induction cart as [|ci cart IH]; simpl; [reflexivity|].
  rewrite Hkey. destruct (JS.eqb (CartItem.itemId ci) i) eqn:E; simpl.
  - exact IH.
  - rewrite (Hother ci E). f_equal. exact IH.
Qed.

(** X2. Adding an item and then removing it leaves the cart as removing it
    would have: whatever was added is gone, and every other line is as it
    was. *)
Theorem addToCart_then_removeFromCart :
  forall (item : MenuItem.t) (q : number) (cart : list CartItem.t),
    removeFromCart (MenuItem.id item) (addToCart item q cart)
    = removeFromCart (MenuItem.id item) cart.
Proof.
  intros item q cart. unfold addToCart.
  destruct (find _ cart) eqn:F.
  - apply removeFromCart_map.
    + intros ci. now destruct (JS.eqb (CartItem.itemId ci) (MenuItem.id item)).
    + intros ci E. now rewrite E.
  - unfold removeFromCart. rewrite filter_app. simpl.
    unfold CartItem.itemId at 2. simpl. rewrite str_eqb_refl. simpl.
    apply app_nil_r.
Qed.

(** X3. Looking an item up after [addToCart]: the added item is found with
    the added quantity on top of what its line held (the line keeps its
    menu item and note), or as a fresh line when it was absent; every other
    item is found as before. *)
Theorem addToCart_lookup :
  forall (item : MenuItem.t) (q : number) (cart : list CartItem.t) (k : jsstring),
    find_line k (addToCart item q cart) =
    if JS.eqb (MenuItem.id item) k
    then Some (match find_line (MenuItem.id item) cart with
               | Some ci => with_quantity (CartItem.quantity ci + q)%float ci
               | None => CartItem.mk item q None
               end)
    else find_line k cart.
Proof.
  intros item q cart k. unfold addToCart.
  fold (find_line (MenuItem.id item) cart).
  destruct (find_line (MenuItem.id item) cart) as [line|] eqn:F.
  - rewrite find_line_map
      by (intros ci; now destruct (JS.eqb (CartItem.itemId ci) (MenuItem.id item))).
    destruct (JS.eqb (MenuItem.id item) k) eqn:E.
    + apply str_eqb_eq in E. subst k. rewrite F. simpl.
      assert (Hl : JS.eqb (CartItem.itemId line) (MenuItem.id item) = true).
      { unfold find_line in F. apply find_some in F. apply F. }
      now rewrite Hl.
    + destruct (find_line k cart) as [ci|] eqn:Fk; [|reflexivity]. simpl.
      assert (Hc : JS.eqb (CartItem.itemId ci) k = true).
      { unfold find_line in Fk. apply find_some in Fk. apply Fk. }
      destruct (JS.eqb (CartItem.itemId ci) (MenuItem.id item)) eqn:Ec; [|reflexivity].
      apply str_eqb_eq in Hc, Ec. rewrite <- Ec, Hc, str_eqb_refl in E. discriminate.
  - rewrite find_line_snoc. unfold CartItem.itemId at 1. simpl.
    destruct (JS.eqb (MenuItem.id item) k) eqn:E.
    + apply str_eqb_eq in E. subst k. now rewrite F.
    + now destruct (find_line k cart).
Qed.

Lemma updateCartItemQuantity_absent (i : jsstring) (q : number) (cart : list CartItem.t) :
  in_cart i cart = false -> updateCartItemQuantity i q cart = cart.
Proof.
  intros H. unfold updateCartItemQuantity.
  destruct (q <=? 0)%float; [now apply removeFromCart_absent|].
  unfold in_cart in H. induction cart as [|ci cart IH]; simpl; [reflexivity|].
  simpl in H. apply orb_false_iff in H as [E Hrest].
  rewrite E. f_equal. now apply IH.
Qed.

(** X4. [updateCartItemQuantity] never creates a line: on a cart without
    the item it changes nothing, whatever the quantity.  Otherwise the item
    is afterwards not found when the quantity is at most 0, and found with
    exactly the given quantity (not added to the old one) when it is not;
    every other item is found as before. *)
Theorem updateCartItemQuantity_lookup :
  forall (i : jsstring) (q : number) (cart : list CartItem.t),
    (forall k : jsstring,
        find_line k (updateCartItemQuantity i q cart) =
        if JS.eqb k i
        then (if (q <=? 0)%float then None
              else option_map (with_quantity q) (find_line i cart))
        else find_line k cart)
    /\ (in_cart i cart = false -> updateCartItemQuantity i q cart = cart).
Proof.
  intros i q cart. split; [|apply updateCartItemQuantity_absent].
  intros k. unfold updateCartItemQuantity.
  destruct (q <=? 0)%float.
  - apply find_line_remove.
  - rewrite find_line_map
      by (intros ci; now destruct (JS.eqb (CartItem.itemId ci) i)).
    destruct (JS.eqb k i) eqn:E.
    + apply str_eqb_eq in E. subst k.
      destruct (find_line i cart) as [ci|] eqn:F; [|reflexivity]. simpl.
      assert (Hc : JS.eqb (CartItem.itemId ci) i = true).
      { unfold find_line in F. apply find_some in F. apply F. }
      now rewrite Hc.
    + destruct (find_line k cart) as [ci|] eqn:F; [|reflexivity]. simpl.
      assert (Hc : JS.eqb (CartItem.itemId ci) k = true).
      { unfold find_line in F. apply find_some in F. apply F. }
      destruct (JS.eqb (CartItem.itemId ci) i) eqn:Ec; [|reflexivity].
      apply str_eqb_eq in Hc, Ec. rewrite <- Hc, Ec, str_eqb_refl in E. discriminate.
Qed.

Lemma updateCartItemQuantity_lookup_witness :
  updateCartItemQuantity (lit "m9") 7%float Sample.cart2 = Sample.cart2
  /\ find_line (lit "m1") (updateCartItemQuantity (lit "m1") 7%float Sample.cart2)
     = Some (CartItem.mk Sample.jollof 7%float None).
Proof.
  split.
  - apply (updateCartItemQuantity_lookup (lit "m9") 7%float Sample.cart2). reflexivity.
  - exact (proj1 (updateCartItemQuantity_lookup (lit "m1") 7%float Sample.cart2)
                 (lit "m1")).
Defined.

End CartLookups.

(* ================================================================== *)
(** ** The menu page's quantity buttons *)

Section MenuButtons.

Import OrderContext.
Import MenuPage.

(** Clamping at 0 does not change on which side of the removal test of
    [updateCartItemQuantity] a number falls. *)
Lemma max_zero_leb (x : number) :
  (JSNum.max 0%float x <=? 0)%float = (x <=? 0)%float.
Proof.
  unfold JSNum.max, JSNum.is_negative_zero, PrimFloat.is_nan.
  change (0 =? 0)%float with true. change (classify 0) with PZero. simpl.
  rewrite (leb_spec x), (eqb_spec x x), (ltb_spec 0 x), (ltb_spec x 0).
  change (Prim2SF 0) with (S754_zero false).
  destruct (Prim2SF x) as [s|s| |s m e] eqn:P; try destruct s; simpl;
    try reflexivity;
    try (rewrite leb_spec, P; reflexivity).
  - unfold SFeqb, SFcompare. rewrite Pos.compare_cont_refl, Z.compare_refl. simpl.
    reflexivity.
  - unfold SFeqb, SFcompare. rewrite Pos.compare_cont_refl, Z.compare_refl. simpl.
    rewrite leb_spec, P. reflexivity.
Qed.

(** Above the removal test, clamping at 0 returns the number itself. *)
Lemma max_zero_above (x : number) :
  (x <=? 0)%float = false -> JSNum.max 0%float x = x.
Proof.
  unfold JSNum.max, JSNum.is_negative_zero, PrimFloat.is_nan.
  change (0 =? 0)%float with true. change (classify 0) with PZero. simpl.
  rewrite (leb_spec x), (eqb_spec x x), (ltb_spec 0 x), (ltb_spec x 0).
  change (Prim2SF 0) with (S754_zero false).
  destruct (Prim2SF x) as [s|s| |s m e] eqn:P; try destruct s; simpl;
    intros H; try discriminate; try reflexivity.
  - apply Prim2SF_inj. now rewrite P.
  - unfold SFeqb, SFcompare. rewrite Pos.compare_cont_refl, Z.compare_refl. simpl.
    reflexivity.
Qed.

(** X5. The quantity buttons of the menu page set the quantity to the
    displayed quantity plus the step: the clamp [Math.max(0, ...)] never
    changes the outcome, since [updateCartItemQuantity] removes the line for
    every quantity that is at most 0.  In particular a button pressed for an
    item without a line changes nothing. *)
Theorem handleQuantityChange_is_update :
  forall (view : list CartItem.t) (item : MenuItem.t) (delta : number)
         (cart : list CartItem.t),
    handleQuantityChange view item delta cart
    = updateCartItemQuantity (MenuItem.id item)
        (getItemQuantity (MenuItem.id item) view + delta)%float cart
    /\ (in_cart (MenuItem.id item) cart = false ->
        handleQuantityChange view item delta cart = cart).
Proof.
  intros view item delta cart.
  assert (E : handleQuantityChange view item delta cart
              = updateCartItemQuantity (MenuItem.id item)
                  (getItemQuantity (MenuItem.id item) view + delta)%float cart).
  { unfold handleQuantityChange, updateCartItemQuantity.
    rewrite max_zero_leb.
    destruct (getItemQuantity (MenuItem.id item) view + delta <=? 0)%float eqn:L;
      [reflexivity|].
    now rewrite (max_zero_above _ L). }
  split; [exact E|].
  intros Habs. rewrite E. now apply updateCartItemQuantity_absent.
Qed.

Lemma handleQuantityChange_is_update_witness :
  handleQuantityChange Sample.cart2 Sample.sachet 1%float Sample.cart2 = Sample.cart2
  /\ handleQuantityChange Sample.cart2 Sample.chicken (-1)%float Sample.cart2
     = [CartItem.mk Sample.jollof 3%float None].
Proof.
  split.
  - apply (handleQuantityChange_is_update Sample.cart2 Sample.sachet 1%float Sample.cart2).
    reflexivity.
  - exact (proj1 (handleQuantityChange_is_update Sample.cart2 Sample.chicken
                    (-1)%float Sample.cart2)).
Defined.

Lemma updateCartItemInstructions_NoDup (i text : jsstring) (cart : list CartItem.t) :
  NoDup (cart_ids cart) -> NoDup (cart_ids (updateCartItemInstructions i text cart)).
Proof.
  intros H. unfold updateCartItemInstructions.
  rewrite cart_ids_map; [exact H|].
  intros ci. now destruct (JS.eqb (CartItem.itemId ci) i).
Qed.

Lemma apply_call_NoDup (c : CartCall) (cart : list CartItem.t) :
  NoDup (cart_ids cart) -> NoDup (cart_ids (apply_call c cart)).
Proof.
  destruct c; simpl; intros H.
  - now apply addToCart_NoDup.
  - now apply removeFromCart_NoDup.
  - now apply updateCartItemQuantity_NoDup.
  - now apply updateCartItemInstructions_NoDup.
  - constructor.
  - now apply addToCart_NoDup.
  - now apply updateCartItemQuantity_NoDup.
Qed.

(** X6. Every way the pages change the cart — the five operations of the
    context and the two handlers of the menu page — keeps the lines' item
    ids distinct, starting from any cart whose ids are distinct. *)
Theorem cart_calls_keep_ids_distinct :
  forall (cs : list CartCall) (cart : list CartItem.t),
    NoDup (cart_ids cart) -> NoDup (cart_ids (apply_calls cs cart)).
Proof.
  induction cs as [|c cs IH]; intros cart H; simpl; [exact H|].
  apply IH. now apply apply_call_NoDup.
Qed.

Lemma cart_calls_keep_ids_distinct_witness :
  NoDup (cart_ids
           (apply_calls [DoMenuAdd Sample.jollof; DoSetInstructions (lit "m1") (lit "hot");
                         DoMenuChange Sample.chicken (-1)%float; DoAdd Sample.chicken 2%float]
                        Sample.cart2)).
Proof.
  apply (cart_calls_keep_ids_distinct _ Sample.cart2).
  repeat constructor; simpl; intuition discriminate.
Defined.

Lemma in_cart_map (f : CartItem.t -> CartItem.t) (k : jsstring) (cart : list CartItem.t) :
  (forall ci, CartItem.itemId (f ci) = CartItem.itemId ci) ->
  in_cart k (map f cart) = in_cart k cart.
Proof.
  intros Hf. unfold in_cart. induction cart as [|ci cart IH]; simpl; [reflexivity|].
  now rewrite Hf, IH.
Qed.

Lemma in_cart_removeFromCart (i k : jsstring) (cart : list CartItem.t) :
  in_cart k (removeFromCart i cart) = true -> in_cart k cart = true.
Proof.
  rewrite !in_cart_iff. apply removeFromCart_ids_incl.
Qed.

Lemma in_cart_updateCartItemQuantity (i k : jsstring) (q : number) (cart : list CartItem.t) :
  in_cart k (updateCartItemQuantity i q cart) = true -> in_cart k cart = true.
Proof.
  unfold updateCartItemQuantity. destruct (q <=? 0)%float.
  - apply in_cart_removeFromCart.
  - rewrite in_cart_map; [auto|].
    intros ci. now destruct (JS.eqb (CartItem.itemId ci) i).
Qed.

(** X7. Only [addToCart] creates lines: after any series of calls that does
    not go through [addToCart] (removals, quantity and note updates, clear,
    the menu page's quantity buttons), every item in the cart was in it
    before. *)
Theorem only_addToCart_creates_lines :
  forall (cs : list CartCall) (cart : list CartItem.t) (k : jsstring),
    forallb (fun c => negb (is_add_call c)) cs = true ->
    in_cart k (apply_calls cs cart) = true ->
    in_cart k cart = true.
Proof.
  induction cs as [|c cs IH]; intros cart k Hcs Hin; simpl in *; [exact Hin|].
  apply andb_true_iff in Hcs as [Hc Hcs].
  specialize (IH _ _ Hcs Hin).
  destruct c; simpl in *; try discriminate.
  - now apply in_cart_removeFromCart in IH.
  - now apply in_cart_updateCartItemQuantity in IH.
  - unfold updateCartItemInstructions in IH. rewrite in_cart_map in IH; [exact IH|].
    intros ci. now destruct (JS.eqb (CartItem.itemId ci) itemId).
  - unfold handleQuantityChange in IH. now apply in_cart_updateCartItemQuantity in IH.
Qed.

Lemma only_addToCart_creates_lines_witness :
  in_cart (lit "m1") Sample.cart2 = true.
Proof.
  apply (only_addToCart_creates_lines
           [DoMenuChange Sample.chicken (-1)%float; DoSetQuantity (lit "m1") 2%float]
           Sample.cart2 (lit "m1")); reflexivity.
Defined.

End MenuButtons.

(* ================================================================== *)
(** ** More on checkout *)

Section CheckoutMore.

Import CartPage.

(** X8. [handleCheckout] never throws, whatever the collaborator answers:
    every failure is caught.  When it gets past the empty-cart guard it
    always ends with the loading flag reset; the order note typed by the
    user is never changed. *)
Theorem handleCheckout_never_throws :
  forall (api : Api) (s : State),
    let r := click_checkout api s in
    completion r = Normal tt
    /\ loading (final r)
       = (if Nat.eqb (List.length (OrderContext.cartItems (ctx s))) 0
          then loading s else false)
    /\ specialInstructions (final r) = specialInstructions s.
Proof.
  intros api [[table cart order0 methods selected] ld err instr].
  unfold click_checkout, handleCheckout. simpl.
  destruct cart as [|line cart]; simpl; [repeat split|].
  unfold setCurrentOrder, clearCart, setLoading, setError. run_handler.
  destruct (getPaymentMethods api) as [ms|e]; simpl; [|repeat split].
  destruct table as [t|]; simpl; [|repeat split].
  destruct (createOrder api _) as [order|e]; simpl; repeat split.
Qed.

(** X9. One cart gives one order: after a checkout whose order creation
    succeeded, a further click on "Proceed to Payment" sends nothing and
    changes nothing, whatever the collaborator would answer. *)
Theorem checkout_twice_orders_once :
  forall (api api' : Api) (s : State) (t : Table.t) (order : Order.t),
    OrderContext.cartItems (ctx s) <> [] ->
    OrderContext.table (ctx s) = Some t ->
    order_creation api s t = Resolved order ->
    let s1 := final (click_checkout api s) in
    click_checkout api' s1 = (Normal tt, s1, []).
Proof.
  intros api api' [[table cart order0 methods selected] ld err instr] t order
         Hne Ht Hok s1.
  simpl in Hne, Ht. subst table. destruct cart as [|line cart]; [contradiction|].
  unfold order_creation in Hok. simpl in Hok.
  assert (Hs : s1 = mk (OrderContext.mk (Some t) [] (Some order) methods selected)
                       false None instr).
  { subst s1. unfold click_checkout, handleCheckout. simpl.
    unfold setCurrentOrder, clearCart, setLoading, setError. run_handler.
    destruct (getPaymentMethods api) as [ms|e]; [|discriminate]. simpl.
    rewrite Hok. reflexivity. }
  rewrite Hs. reflexivity.
Qed.

Lemma checkout_twice_orders_once_witness :
  click_checkout Sample.api_refusing
    (final (click_checkout Sample.api_up
              (Sample.cart_page (Some Sample.table1) Sample.cart2)))
  = (Normal tt,
     final (click_checkout Sample.api_up
              (Sample.cart_page (Some Sample.table1) Sample.cart2)),
     []).
Proof.
  apply (checkout_twice_orders_once Sample.api_up Sample.api_refusing
           (Sample.cart_page (Some Sample.table1) Sample.cart2)
           Sample.table1 (Sample.order_with pending)).
  - vm_compute. discriminate.
  - reflexivity.
  - reflexivity.
Defined.

(** X10. A failed checkout can be retried: when the order creation failed,
    the next click behaves exactly as a first click on the page would —
    same requests, same outcome, same final page. *)
Theorem checkout_retry_after_failure :
  forall (api api' : Api) (s : State) (t : Table.t) (e : Thrown),
    OrderContext.cartItems (ctx s) <> [] ->
    OrderContext.table (ctx s) = Some t ->
    order_creation api s t = Rejected e ->
    click_checkout api' (final (click_checkout api s)) = click_checkout api' s.
Proof.
  intros api api' [[table cart order0 methods selected] ld err instr] t e; simpl.
  intros Hne -> Hko. destruct cart as [|line cart]; [contradiction|].
  unfold order_creation in Hko. simpl in Hko.
  assert (Hs : final (click_checkout api
                 (mk (OrderContext.mk (Some t) (line :: cart) order0 methods selected)
                     ld err instr))
               = mk (OrderContext.mk (Some t) (line :: cart) order0 methods selected)
                    false
                    (Some (or_else (message e) (lit "Failed to create order")))
                    instr).
  { unfold click_checkout, handleCheckout. simpl.
    unfold setCurrentOrder, clearCart, setLoading, setError. run_handler.
    destruct (getPaymentMethods api) as [ms|e0]; simpl.
    - rewrite Hko. reflexivity.
    - inversion Hko; subst. reflexivity. }
  rewrite Hs. unfold click_checkout, handleCheckout. simpl.
  unfold setCurrentOrder, clearCart, setLoading, setError. run_handler.
  destruct (getPaymentMethods api') as [ms|e0]; simpl; [|reflexivity].
  destruct (createOrder api' _) as [order|e0]; reflexivity.
Qed.

Lemma checkout_retry_after_failure_witness :
  click_checkout Sample.api_up
    (final (click_checkout Sample.api_refusing
              (Sample.cart_page (Some Sample.table1) Sample.cart2)))
  = click_checkout Sample.api_up (Sample.cart_page (Some Sample.table1) Sample.cart2).
Proof.
  apply (checkout_retry_after_failure Sample.api_refusing Sample.api_up
           (Sample.cart_page (Some Sample.table1) Sample.cart2)
           Sample.table1 (ApiError 400 (lit "Bad Request") None)).
  - vm_compute. discriminate.
  - reflexivity.
  - reflexivity.
Defined.

Lemma default_method_cases (methods : list PaymentMethodInfo.t) :
  (default_method methods = cash
   /\ forallb (fun m => negb (PaymentMethodInfo.isActive m)) methods = true)
  \/ (exists before m after,
         methods = before ++ m :: after
         /\ forallb (fun m' => negb (PaymentMethodInfo.isActive m')) before = true
         /\ PaymentMethodInfo.isActive m = true
         /\ default_method methods = PaymentMethodInfo.type m).
Proof.
  unfold default_method.
  induction methods as [|m methods IH]; simpl.
  - left. split; reflexivity.
  - destruct (PaymentMethodInfo.isActive m) eqn:A; simpl.
    + right. exists [], m, methods. repeat split. exact A.
    + destruct IH as [[Hc Hall]|[before [m' [after [Heq [Hb [Ha Hd]]]]]]].
      * left. split; assumption.
      * right. exists (m :: before), m', after. subst methods.
        repeat split; simpl; try rewrite A; simpl; assumption.
Qed.

(** X11. The order that checkout requests: when the payment methods are
    fetched and the table is bound, exactly one order creation is requested.
    It is for the bound table and lists the cart's lines one for one, in
    order, with their item ids, quantities and notes.  Its payment method is
    the type of the first active method of the fetched list — the context's
    selected method plays no part — and [cash] when no method is active. *)
Theorem checkout_request_payload :
  forall (api : Api) (s : State) (t : Table.t) (methods : list PaymentMethodInfo.t),
    OrderContext.cartItems (ctx s) <> [] ->
    OrderContext.table (ctx s) = Some t ->
    getPaymentMethods api = Resolved methods ->
    exists req,
      api_calls (events (click_checkout api s))
        = [CallGetPaymentMethods; CallCreateOrder req]
      /\ CreateOrderRequest.tableId req = Table.id t
      /\ map CreateOrderItem.menuItemId (CreateOrderRequest.items req)
         = cart_ids (OrderContext.cartItems (ctx s))
      /\ map CreateOrderItem.quantity (CreateOrderRequest.items req)
         = map CartItem.quantity (OrderContext.cartItems (ctx s))
      /\ map CreateOrderItem.specialInstructions (CreateOrderRequest.items req)
         = map CartItem.specialInstructions (OrderContext.cartItems (ctx s))
      /\ ((CreateOrderRequest.paymentMethod req = cash
           /\ forallb (fun m => negb (PaymentMethodInfo.isActive m)) methods = true)
          \/ (exists before m after,
                methods = before ++ m :: after
                /\ forallb (fun m' => negb (PaymentMethodInfo.isActive m')) before = true
                /\ PaymentMethodInfo.isActive m = true
                /\ CreateOrderRequest.paymentMethod req = PaymentMethodInfo.type m)).
Proof.
  intros api [[table cart order0 ms0 selected] ld err instr] t methods; simpl.
  intros Hne -> Hms. destruct cart as [|line cart]; [contradiction|].
  exists (order_request (Table.id t) (line :: cart) (default_method methods) instr).
  split; [|split; [|split; [|split; [|split]]]].
  - unfold click_checkout, handleCheckout. simpl.
    unfold setCurrentOrder, clearCart, setLoading, setError. run_handler.
    rewrite Hms. simpl.
    destruct (createOrder api _) as [order|e]; reflexivity.
  - reflexivity.
  - unfold order_request, cart_ids. simpl. f_equal. rewrite map_map. reflexivity.
  - unfold order_request. simpl. f_equal. rewrite map_map. reflexivity.
  - unfold order_request. simpl. f_equal. rewrite map_map. reflexivity.
  - apply default_method_cases.
Qed.

Lemma checkout_request_payload_witness :
  exists req,
    api_calls (events (click_checkout Sample2.api_mixed
                         (Sample.cart_page (Some Sample.table1) Sample.cart2)))
      = [CallGetPaymentMethods; CallCreateOrder req]
    /\ CreateOrderRequest.paymentMethod req = transfer.
Proof.
  destruct (checkout_request_payload Sample2.api_mixed
              (Sample.cart_page (Some Sample.table1) Sample.cart2) Sample.table1
              [Sample2.method_retired; Sample.method_transfer; Sample.method_cash])
    as [req [Hcalls _]].
  - vm_compute. discriminate.
  - reflexivity.
  - reflexivity.
  - exists req. split; [exact Hcalls|].
    vm_compute in Hcalls. inversion Hcalls. reflexivity.
Defined.

(** X12. The cart page's effect never throws and offers only active
    payment methods: with a bound table it requests the methods once and
    stores the active ones in the order received (a failed request leaves
    the page as it was, with no error shown); without a table it sends
    nothing and navigates to the start page. *)
Theorem cart_page_effect_offers_active_methods :
  forall (api : Api) (s : State),
    let r := CartPageEffects.run_effect api s in
    completion r = Normal tt
    /\ match OrderContext.table (ctx s) with
       | None => final r = s /\ events r = [Navigate (lit "/") None]
       | Some _ =>
           events r = [CallGetPaymentMethods]
           /\ match getPaymentMethods api with
              | Resolved methods =>
                  OrderContext.paymentMethods (ctx (final r))
                  = filter PaymentMethodInfo.isActive methods
                  /\ forallb PaymentMethodInfo.isActive
                       (OrderContext.paymentMethods (ctx (final r))) = true
                  /\ OrderContext.cartItems (ctx (final r))
                     = OrderContext.cartItems (ctx s)
                  /\ error (final r) = error s
              | Rejected _ => final r = s
              end
       end.
Proof.
  intros api [[table cart order0 methods selected] ld err instr].
  unfold CartPageEffects.run_effect, CartPageEffects.effect,
    CartPageEffects.loadPaymentMethods, CartPageEffects.setPaymentMethods. simpl.
  destruct table as [t|]; run_handler.
  - destruct (getPaymentMethods api) as [ms|e]; simpl; repeat split.
    apply forallb_forall. intros m Hm. now apply filter_In in Hm.
  - repeat split.
Qed.

End CheckoutMore.

(* ================================================================== *)
(** ** More on the payment page *)

Section PaymentMore.

Import PaymentPage.

(** X13. The payment page's handlers stay in their stage.  A click on
    "Proceed with Payment" sends nothing or exactly one payment initiation,
    for the page's order id and the selected method's type; a click on
    "Upload Receipt" sends nothing or exactly one receipt upload, for the
    stored payment id and the receipt reference exactly as typed
    (untrimmed).  Neither ever requests an order creation, neither throws,
    and neither changes the session context. *)
Theorem payment_handlers_stay_in_stage :
  forall (api : Api) (s : State),
    let ri := click_initiate api s in
    let ru := click_upload api s in
    (api_calls (events ri) = []
     \/ exists m oid,
          OrderContext.selectedPaymentMethod (ctx s) = Some m
          /\ orderId s = Some oid
          /\ api_calls (events ri)
             = [CallInitiatePayment
                  (InitiatePaymentRequest.mk oid (PaymentMethodInfo.type m))])
    /\ (api_calls (events ru) = []
        \/ exists pid,
             paymentId s = Some pid
             /\ api_calls (events ru)
                = [CallUploadTransferReceipt
                     (UploadReceiptRequest.mk pid (receiptUrl s))])
    /\ completion ri = Normal tt /\ completion ru = Normal tt
    /\ ctx (final ri) = ctx s /\ ctx (final ru) = ctx s.
Proof.
  intros api s ri ru. subst ri ru.
  unfold click_initiate, handleInitiatePayment, click_upload, handleUploadReceipt.
  split; [|split].
  - destruct (OrderContext.selectedPaymentMethod (ctx s)) as [m|]; [|now left].
    destruct (orderId s) as [oid|]; [|now left].
    destruct (truthy oid); simpl; [|now left].
    right. exists m, oid. repeat split.
    unfold setLoading, setError, setPaymentId, setPaymentInitiated. run_handler.
    destruct (initiatePayment api _) as [p|e]; simpl; [|reflexivity].
    destruct (PaymentMethodInfo.type m); reflexivity.
  - destruct (paymentId s) as [pid|]; [|now left].
    destruct (truthy (trim (receiptUrl s))); simpl; [|now left].
    destruct (truthy pid); simpl; [|now left].
    right. exists pid. split; [reflexivity|].
    unfold setUploading, setError. run_handler.
    destruct (uploadTransferReceipt api _) as [p|e]; reflexivity.
  - destruct (OrderContext.selectedPaymentMethod (ctx s)) as [m|];
      destruct (orderId s) as [oid|];
      destruct (paymentId s) as [pid|];
      try destruct (truthy oid); try destruct (truthy (trim (receiptUrl s)));
      try destruct (truthy pid); simpl;
      unfold setLoading, setError, setPaymentId, setPaymentInitiated, setUploading;
      run_handler;
      try destruct (initiatePayment api _) as [p|e]; simpl;
      try destruct (PaymentMethodInfo.type m);
      try destruct (uploadTransferReceipt api _) as [p'|e']; simpl;
      repeat split.
Qed.

(** X14. A failed payment initiation can be retried: the failure is
    recorded as the page's error, nothing is navigated, the page neither
    awaits a receipt nor holds a payment id it did not hold before, and the
    next click behaves exactly as a first click would. *)
Theorem initiate_retry_after_failure :
  forall (api api' : Api) (s : State) (m : PaymentMethodInfo.t) (oid : jsstring)
         (e : Thrown),
    OrderContext.selectedPaymentMethod (ctx s) = Some m ->
    orderId s = Some oid ->
    truthy oid = true ->
    initiatePayment api (InitiatePaymentRequest.mk oid (PaymentMethodInfo.type m))
      = Rejected e ->
    let r := click_initiate api s in
    error (final r) = Some (or_else (message e) (lit "Failed to initiate payment"))
    /\ loading (final r) = false
    /\ paymentInitiated (final r) = paymentInitiated s
    /\ paymentId (final r) = paymentId s
    /\ completes_checkout (events r) = false
    /\ click_initiate api' (final r) = click_initiate api' s.
Proof.
  intros api api' s m oid e Hsel Hoid Ht Hko r.
  assert (Hr : r = (Normal tt,
                    mk (ctx s) (locationOrderId s) false
                       (Some (or_else (message e) (lit "Failed to initiate payment")))
                       (paymentInitiated s) (paymentId s) (receiptUrl s) (uploading s),
                    [CallInitiatePayment
                       (InitiatePaymentRequest.mk oid (PaymentMethodInfo.type m))])).
  { subst r. unfold click_initiate, handleInitiatePayment.
    rewrite Hsel, Hoid, Ht. simpl.
    unfold setLoading, setError, setPaymentId, setPaymentInitiated. run_handler.
    rewrite Hko. reflexivity. }
  rewrite Hr. unfold final, events. simpl. repeat split.
  unfold click_initiate, handleInitiatePayment, orderId in *. simpl.
  rewrite Hsel, Hoid, Ht. simpl.
  unfold setLoading, setError, setPaymentId, setPaymentInitiated. run_handler.
  destruct (initiatePayment api' _) as [p|e0]; simpl; [|reflexivity].
  destruct (PaymentMethodInfo.type m); reflexivity.
Qed.

Lemma initiate_retry_after_failure_witness :
  click_initiate Sample.api_up
    (final (click_initiate Sample.api_refusing
              (Sample.payment_page Sample.method_transfer)))
  = click_initiate Sample.api_up (Sample.payment_page Sample.method_transfer).
Proof.
  apply (initiate_retry_after_failure Sample.api_refusing Sample.api_up
           (Sample.payment_page Sample.method_transfer) Sample.method_transfer
           (lit "o1") (ApiError 400 (lit "Bad Request") None)); reflexivity.
Defined.

(** X15. A failed receipt upload can be retried: the failure is recorded as
    the page's error, the page keeps awaiting the receipt with the same
    payment id and the same typed reference, nothing is navigated, and the
    next click behaves exactly as a first click would. *)
Theorem upload_retry_after_failure :
  forall (api api' : Api) (s : State) (pid : jsstring) (e : Thrown),
    paymentId s = Some pid ->
    truthy pid = true ->
    truthy (trim (receiptUrl s)) = true ->
    uploadTransferReceipt api (UploadReceiptRequest.mk pid (receiptUrl s))
      = Rejected e ->
    let r := click_upload api s in
    error (final r) = Some (or_else (message e) (lit "Failed to upload receipt"))
    /\ uploading (final r) = false
    /\ paymentInitiated (final r) = paymentInitiated s
    /\ paymentId (final r) = paymentId s
    /\ receiptUrl (final r) = receiptUrl s
    /\ completes_checkout (events r) = false
    /\ click_upload api' (final r) = click_upload api' s.
Proof.
  intros api api' [c loc ld err pin pidopt rec upl] pid e Hpid Ht Hrec Hko r.
  simpl in Hpid, Hrec, Hko. subst pidopt.
  assert (Hr : r = (Normal tt,
                    mk c loc ld
                       (Some (or_else (message e) (lit "Failed to upload receipt")))
                       pin (Some pid) rec false,
                    [CallUploadTransferReceipt (UploadReceiptRequest.mk pid rec)])).
  { subst r. unfold click_upload, handleUploadReceipt. simpl.
    rewrite Ht, Hrec. simpl.
    unfold setUploading, setError. run_handler.
    rewrite Hko. reflexivity. }
  rewrite Hr. unfold final, events. simpl. repeat split.
  unfold click_upload, handleUploadReceipt, orderId. simpl.
  rewrite Ht, Hrec. simpl.
  unfold setUploading, setError. run_handler.
  destruct (uploadTransferReceipt api' _) as [p|e0]; reflexivity.
Qed.

Lemma upload_retry_after_failure_witness :
  click_upload Sample.api_up
    (final (click_upload Sample.api_refusing Sample2.awaiting_receipt_typed))
  = click_upload Sample.api_up Sample2.awaiting_receipt_typed.
Proof.
  apply (upload_retry_after_failure Sample.api_refusing Sample.api_up
           Sample2.awaiting_receipt_typed (lit "pay1")
           (ApiError 400 (lit "Bad Request") None)); reflexivity.
Defined.

(** X16. Opened without an order in the session context but with an order
    id from the link, the payment page requests that order once.  When the
    request resolves the order becomes the session's active order and the
    effect, run again, sends nothing more; when it is rejected the session
    still holds no order and the failure is recorded as the page's error.
    The effect never throws. *)
Theorem payment_page_loads_missing_order :
  forall (api api' : Api) (s : State) (oid : jsstring),
    OrderContext.currentOrder (ctx s) = None ->
    orderId s = Some oid ->
    truthy oid = true ->
    let r := PaymentPageEffects.run_effect api s in
    completion r = Normal tt
    /\ api_calls (events r) = [CallGetOrderById oid]
    /\ match getOrderById api oid with
       | Resolved order =>
           OrderContext.currentOrder (ctx (final r)) = Some order
           /\ error (final r) = error s
           /\ PaymentPageEffects.run_effect api' (final r) = (Normal tt, final r, [])
       | Rejected e =>
           OrderContext.currentOrder (ctx (final r)) = None
           /\ error (final r) = Some (or_else (message e) (lit "Failed to load order"))
       end.
Proof.
  intros api api' s oid Hnone Hoid Ht r. subst r.
  assert (Hloc : locationOrderId s = Some oid).
  { unfold orderId in Hoid. rewrite Hnone in Hoid. simpl in Hoid.
    destruct (truthy_opt (locationOrderId s)); [exact Hoid|discriminate]. }
  unfold PaymentPageEffects.run_effect, PaymentPageEffects.effect,
    PaymentPageEffects.loadOrder, PaymentPageEffects.setCurrentOrder, setError.
  rewrite Hoid, Hnone. simpl. rewrite Ht. simpl. run_handler.
  destruct (getOrderById api oid) as [order|e]; simpl; repeat split; auto.
  unfold orderId. simpl. rewrite Hloc. unfold truthy_opt.
  rewrite Ht. simpl. rewrite Ht. reflexivity.
Qed.

Lemma payment_page_loads_missing_order_witness :
  api_calls (events (PaymentPageEffects.run_effect Sample.api_up
                       Sample2.payment_page_cold))
  = [CallGetOrderById (lit "o1")].
Proof.
  apply (payment_page_loads_missing_order Sample.api_up Sample.api_up
           Sample2.payment_page_cold (lit "o1")); reflexivity.
Defined.

End PaymentMore.

(* ================================================================== *)
(** ** More on order tracking *)

Section TrackingMore.

Import OrderStatusPage.

(** X17. Through any run of the mounted status page — ticks, requests
    settling in any order, unmount — the page and the session context both
    hold the order of the last request that resolved, replaced as a whole;
    a rejected request changes neither, and before any request has resolved
    both hold the order the session had when the page was mounted. *)
Theorem tracker_holds_last_resolved_order :
  forall (loc : option jsstring) (ctxOrder : option Order.t)
         (acts : list Action) (s' : State),
    run acts (mount loc ctxOrder) = Some s' ->
    order s' = last_snapshot acts ctxOrder
    /\ currentOrder s' = last_snapshot acts ctxOrder.
Proof.
  intros loc ctxOrder acts s' Hrun.
  apply run_snapshots in Hrun. destruct Hrun as [Ho [Hc _]].
  unfold mount in Ho, Hc.
  destruct (effect_keeps (mk loc ctxOrder ctxOrder true None true false 0 []))
    as [Eo [Ec _]].
  rewrite Eo in Ho. rewrite Ec in Hc. split; [exact Ho|exact Hc].
Qed.

Lemma tracker_holds_last_resolved_order_witness :
  exists s',
    run [Tick; Settle (Resolved (Sample.order_with ready));
         Settle (Rejected (TypeError (lit "Failed to fetch")))]
        (mount (Some (lit "o1")) None) = Some s'
    /\ order s' = Some (Sample.order_with ready)
    /\ currentOrder s' = Some (Sample.order_with ready).
Proof.
  eexists. split; [reflexivity|].
  apply (tracker_holds_last_resolved_order (Some (lit "o1")) None
           [Tick; Settle (Resolved (Sample.order_with ready));
            Settle (Rejected (TypeError (lit "Failed to fetch")))]).
  reflexivity.
Defined.

(** A request that resolves with the order id the page already has changes
    neither the timer nor what was sent. *)
Lemma settle_same_id (orderData : Order.t) (s : State) (oid : jsstring) :
  orderId s = Some oid ->
  truthy_opt (locationOrderId s) || JS.eqb (Order.id orderData) oid = true ->
  let s' := loadOrder_settle (Resolved orderData) s in
  orderId s' = Some oid
  /\ log s' = log s
  /\ interval s' = interval s
  /\ mounted s' = mounted s
  /\ inflight s' = pred (inflight s).
Proof.
  intros Hoid Hans. simpl. unfold rerender.
  set (after := mk (locationOrderId s) (Some orderData) (Some orderData) false
                   (error s) (mounted s) (interval s) (pred (inflight s)) (log s)).
  assert (Hafter : orderId after = Some oid).
  { unfold orderId in *. simpl.
    destruct (truthy_opt (locationOrderId s)); [exact Hoid|].
    simpl in Hans. apply str_eqb_eq in Hans. simpl. now rewrite Hans. }
  rewrite Hoid, Hafter, same_orderId_refl, andb_false_r.
  repeat split. exact Hafter.
Qed.

Lemma run_counts (acts : list Action) :
  forall s s' oid,
    orderId s = Some oid ->
    truthy_opt (locationOrderId s) || answers_carry_id oid acts = true ->
    run acts s = Some s' ->
    calls s' = calls s ++ repeat (CallGetOrderById oid) (tick_count acts)
    /\ inflight s' + settle_count acts = inflight s + tick_count acts.
Proof.
  unfold tick_count, settle_count.
  induction acts as [|a acts IH]; intros s s' oid Hoid Hans Hrun; simpl in Hrun.
  - inversion Hrun; subst. simpl. rewrite app_nil_r. split; [reflexivity|lia].
  - assert (Hrest : truthy_opt (locationOrderId s) || answers_carry_id oid acts = true).
    { destruct (truthy_opt (locationOrderId s)); [reflexivity|].
      simpl in Hans |- *. unfold answers_carry_id in Hans. simpl in Hans.
      apply andb_true_iff in Hans. apply Hans. }
    destruct a as [|r|]; simpl in Hrun; simpl.
    + destruct (interval s); [|discriminate].
      destruct (IH (loadOrder_request s) s' oid Hoid Hrest Hrun) as [Hc Hi].
      rewrite Hc, calls_loadOrder_request, Hoid, <- app_assoc. simpl in *.
      split; [reflexivity|lia].
    + destruct (inflight s) as [|n] eqn:En; [discriminate|].
      destruct r as [orderData|e].
      * assert (Hone : truthy_opt (locationOrderId s)
                       || JS.eqb (Order.id orderData) oid = true).
        { destruct (truthy_opt (locationOrderId s)); [reflexivity|].
          simpl in Hans |- *. unfold answers_carry_id in Hans. simpl in Hans.
          apply andb_true_iff in Hans. apply Hans. }
        destruct (settle_same_id orderData s oid Hoid Hone)
          as [Hoid' [Hlog [_ [_ Hin]]]].
        assert (Hloc : locationOrderId (loadOrder_settle (Resolved orderData) s)
                       = locationOrderId s)
          by apply (loadOrder_settle_snapshots (Resolved orderData) s).
        rewrite <- Hloc in Hrest.
        destruct (IH _ s' oid Hoid' Hrest Hrun) as [Hc Hi].
        rewrite Hin, En in Hi. simpl in Hi. split; [|lia].
        rewrite Hc. unfold calls. now rewrite Hlog.
      * destruct (IH (loadOrder_settle (Rejected e) s) s' oid Hoid Hrest Hrun)
          as [Hc Hi].
        simpl in Hi. rewrite En in Hi. simpl in Hi. split; [exact Hc|lia].
    + destruct (mounted s); [|discriminate].
      destruct (IH (unmount s) s' oid Hoid Hrest Hrun) as [Hc Hi].
      split; [exact Hc|exact Hi].
Qed.

(** X18. A status page mounted with a non-empty order id, when that id came
    with the navigation or every order received carries that same id, sends
    one request when it is mounted and exactly one more per timer tick,
    whether or not earlier requests are still pending; every request is a
    [getOrderById] for that id, and the number of pending requests is the
    number sent minus the number settled. *)
Theorem tracker_sends_one_request_per_tick :
  forall (loc : option jsstring) (ctxOrder : option Order.t) (oid : jsstring)
         (acts : list Action) (s' : State),
    orderId (mount loc ctxOrder) = Some oid ->
    truthy oid = true ->
    truthy_opt loc || answers_carry_id oid acts = true ->
    run acts (mount loc ctxOrder) = Some s' ->
    calls s' = repeat (CallGetOrderById oid) (1 + tick_count acts)
    /\ inflight s' + settle_count acts = 1 + tick_count acts.
Proof.
  intros loc ctxOrder oid acts s' Hoid Ht Hans Hrun.
  assert (Hm : mount loc ctxOrder
               = mk loc ctxOrder ctxOrder true None true true 1
                    [CallGetOrderById oid]).
  { unfold mount, effect in *.
    destruct (truthy_opt
                (orderId (mk loc ctxOrder ctxOrder true None true false 0 [])))
      eqn:E; simpl in *.
    - unfold loadOrder_request. simpl.
      unfold orderId in Hoid |- *. simpl in *. now rewrite Hoid.
    - unfold orderId in *. simpl in *. rewrite Hoid in E. simpl in E. congruence. }
  rewrite Hm in Hrun, Hoid.
  destruct (run_counts acts _ s' oid Hoid Hans Hrun) as [Hc Hi].
  split; [exact Hc|exact Hi].
Qed.

Lemma tracker_sends_one_request_per_tick_witness :
  exists s',
    run [Tick; Tick; Settle (Resolved (Sample.order_with ready)); Tick]
        (mount None (Some (Sample.order_with pending))) = Some s'
    /\ calls s' = repeat (CallGetOrderById (lit "o1")) 4
    /\ inflight s' + 1 = 4.
Proof.
  eexists. split; [reflexivity|].
  apply (tracker_sends_one_request_per_tick None (Some (Sample.order_with pending))
           (lit "o1")
           [Tick; Tick; Settle (Resolved (Sample.order_with ready)); Tick]);
    reflexivity.
Defined.

Lemma idle_run_has_no_requests (acts : list Action) :
  forall s s', interval s = false -> inflight s = 0 -> run acts s = Some s' ->
               tick_count acts = 0 /\ settle_count acts = 0 /\ calls s' = calls s.
Proof.
  unfold tick_count, settle_count.
  induction acts as [|a acts IH]; intros s s' Hoff Hnone Hrun; simpl in Hrun.
  - inversion Hrun; subst. repeat split.
  - destruct a as [|r|]; simpl in Hrun.
    + rewrite Hoff in Hrun. discriminate.
    + rewrite Hnone in Hrun. discriminate.
    + destruct (mounted s); [|discriminate].
      simpl. apply (IH (unmount s) s'); auto.
Qed.

(** X19. A status page mounted without an order id (none in the link, none
    in the session) navigates to the start page and never polls: no timer
    is registered, so in any run no tick fires, nothing settles and no
    request is ever sent. *)
Theorem tracker_without_order_id_never_polls :
  forall (loc : option jsstring) (ctxOrder : option Order.t)
         (acts : list Action) (s' : State),
    truthy_opt (orderId (mount loc ctxOrder)) = false ->
    run acts (mount loc ctxOrder) = Some s' ->
    log (mount loc ctxOrder) = [Navigate (lit "/") None]
    /\ calls s' = []
    /\ tick_count acts = 0
    /\ settle_count acts = 0.
Proof.
  intros loc ctxOrder acts s' Hfalsy Hrun.
  assert (Hm : mount loc ctxOrder
               = mk loc ctxOrder ctxOrder true None true false 0
                    [Navigate (lit "/") None]).
  { unfold mount, effect in *.
    destruct (truthy_opt
                (orderId (mk loc ctxOrder ctxOrder true None true false 0 [])))
      eqn:E; simpl in *; [|reflexivity].
    unfold orderId in *. simpl in *. congruence. }
  rewrite Hm in Hrun |- *.
  pose proof (fun H H' => idle_run_has_no_requests acts _ s' H H' Hrun) as Hidle.
  destruct (Hidle eq_refl eq_refl) as [Htk [Hst Hc]].
  repeat split; assumption.
Qed.

Lemma tracker_without_order_id_never_polls_witness :
  exists s',
    run [Unmount] (mount None None) = Some s'
    /\ log (mount None None) = [Navigate (lit "/") None]
    /\ calls s' = []
    /\ tick_count [Unmount] = 0
    /\ settle_count [Unmount] = 0.
Proof.
  eexists. split; [reflexivity|].
  apply (tracker_without_order_id_never_polls None None [Unmount]); reflexivity.
Defined.

(** X20. The checklist has no gaps: for every status the completed steps
    are the first steps of the list — none for pending and rejected, one for
    accepted, two for preparing, three for ready, all five for completed —
    and, unless the order is completed or rejected, the active step is the
    one right after them. *)
Theorem completed_steps_form_a_prefix :
  forall (current : OrderStatus),
    filter (isCompleted current) steps = firstn (steps_done current) steps
    /\ filter (isActive current) steps
       = (if status_eqb current rejected then []
          else if status_eqb current completed then skipn 4 steps
          else firstn 1 (skipn (steps_done current) steps)).
Proof.
  intros current. destruct current; split; reflexivity.
Qed.

End TrackingMore.

(* ================================================================== *)
(** ** The fetch wrapper and the menu load *)

Section FetchAndMenu.

Lemma or_else_nonempty (m fallback : jsstring) :
  truthy (or_else m fallback) = truthy m || truthy fallback.
Proof. unfold or_else. destruct (truthy m) eqn:E; simpl; [exact E|reflexivity]. Qed.

(** The message [fetchApi] gives an [ApiError] is not empty, unless the
    body's [message] is an array or a number. *)
Lemma error_message_nonempty (number_toString : number -> jsstring)
  (error : ApiService.Json) :
  match ApiService.property error (lit "message") with
  | Some (ApiService.JArray _) | Some (ApiService.JNumber _) => True
  | _ => truthy (ApiService.error_message number_toString error) = true
  end.
Proof.
  unfold ApiService.error_message.
  destruct (ApiService.property error (lit "message")) as [v|]; [|reflexivity].
  destruct v as [|b|n|m|items|fields]; simpl; try exact I; try reflexivity.
  - destruct b; reflexivity.
  - destruct (truthy m) eqn:E; [exact E|reflexivity].
Qed.



(** X22. After a menu load the page is no longer loading and the session
    context is untouched.  When the menu arrives, exactly the active
    categories are shown, in the order received; the selected category is
    the first of them, and an error is shown exactly when there is none.
    When the request fails the menu shown before is kept and the failure is
    shown as the page's error. *)
Theorem loadMenu_shows_active_categories :
  forall (r : Settled (list RawCategory.t)) (s : MenuPage.State),
    let s' := MenuPage.loadMenu r s in
    MenuPage.loading s' = false
    /\ MenuPage.ctx s' = MenuPage.ctx s
    /\ match r with
       | Resolved menuData =>
           map MenuCategory.id (MenuPage.menu s')
           = map RawCategory.id (filter RawCategory.isActive menuData)
           /\ forallb MenuCategory.isActive (MenuPage.menu s') = true
           /\ match MenuPage.menu s' with
              | first :: _ =>
                  MenuPage.selectedCategory s' = Some (MenuCategory.id first)
                  /\ MenuPage.error s' = None
              | [] =>
                  MenuPage.selectedCategory s' = MenuPage.selectedCategory s
                  /\ MenuPage.error s' <> None
              end
       | Rejected e =>
           MenuPage.menu s' = MenuPage.menu s
           /\ MenuPage.selectedCategory s' = MenuPage.selectedCategory s
           /\ MenuPage.error s' = Some (or_else (message e) (lit "Failed to load menu"))
       end.
Proof.
  intros r s s'. subst s'. unfold MenuPage.loadMenu, MenuPage.loadMenu_settle.
  destruct r as [menuData|e]; simpl; [|repeat split].
  assert (Hids : map MenuCategory.id (MenuPage.validCategories menuData)
                 = map RawCategory.id (filter RawCategory.isActive menuData)).
  { unfold MenuPage.validCategories. rewrite map_map. reflexivity. }
  assert (Hact : forallb MenuCategory.isActive (MenuPage.validCategories menuData) = true).
  { unfold MenuPage.validCategories. apply forallb_forall. intros c Hc.
    apply in_map_iff in Hc as [raw [<- Hraw]]. simpl.
    now apply filter_In in Hraw. }
  destruct (MenuPage.validCategories menuData) as [|first rest] eqn:V; simpl;
    repeat split; auto; discriminate.
Qed.

End FetchAndMenu.

(* ================================================================== *)
(** ** From checkout to tracking *)

Section Flow.

(** X23. The created order's id flows unchanged through the pages.  After a
    checkout whose order creation succeeded with a non-empty order id, the
    payment page opened by the checkout's navigation works on that id; a
    payment initiation for a selected method requests a payment for that
    id; and for a cash or pos method the page then navigates to the status
    page with that id, whose first request is for that same order. *)
Theorem order_id_flows_through_pages :
  forall (api api' : Api) (s : CartPage.State) (t : Table.t) (order : Order.t)
         (m : PaymentMethodInfo.t) (p : Payment.t),
    OrderContext.cartItems (CartPage.ctx s) <> [] ->
    OrderContext.table (CartPage.ctx s) = Some t ->
    order_creation api s t = Resolved order ->
    truthy (Order.id order) = true ->
    initiatePayment api'
      (InitiatePaymentRequest.mk (Order.id order) (PaymentMethodInfo.type m))
      = Resolved p ->
    let checkout := CartPage.click_checkout api s in
    let ctx1 := CartPage.ctx (final checkout) in
    let page :=
      PaymentPageEffects.setSelectedPaymentMethod m
        (PaymentPage.initial ctx1 (Some (Order.id order))) in
    let pay := PaymentPage.click_initiate api' page in
    In (Navigate (lit "/payment") (Some (Order.id order))) (events checkout)
    /\ PaymentPage.orderId page = Some (Order.id order)
    /\ api_calls (events pay)
       = [CallInitiatePayment
            (InitiatePaymentRequest.mk (Order.id order) (PaymentMethodInfo.type m))]
    /\ match PaymentMethodInfo.type m with
       | transfer => PaymentPage.paymentInitiated (final pay) = true
       | cash | pos =>
           In (Navigate (lit "/order-status") (Some (Order.id order))) (events pay)
           /\ OrderStatusPage.calls
                (OrderStatusPage.mount (Some (Order.id order))
                   (OrderContext.currentOrder (PaymentPage.ctx (final pay))))
              = [CallGetOrderById (Order.id order)]
       end.
Proof.
  intros api api' [[table cart order0 methods selected] ld err instr] t order m p
         Hne Ht Hok Hid Hpay checkout ctx1 page pay.
  simpl in Hne, Ht. subst table. destruct cart as [|line cart]; [contradiction|].
  unfold order_creation in Hok. simpl in Hok.
  assert (Hc : checkout =
               (Normal tt,
                CartPage.mk (OrderContext.mk (Some t) [] (Some order) methods selected)
                            false None instr,
                [CallGetPaymentMethods;
                 CallCreateOrder
                   (CartPage.order_request (Table.id t) (line :: cart)
                      (match getPaymentMethods api with
                       | Resolved ms => CartPage.default_method ms
                       | Rejected _ => cash
                       end) instr);
                 SetCurrentOrder order; ClearCart;
                 Navigate (lit "/payment") (Some (Order.id order))])).
  { subst checkout. unfold CartPage.click_checkout, CartPage.handleCheckout. simpl.
    unfold CartPage.setCurrentOrder, CartPage.clearCart, CartPage.setLoading,
      CartPage.setError. run_handler.
    destruct (getPaymentMethods api) as [ms|e]; [|discriminate]. simpl.
    rewrite Hok. reflexivity. }
  assert (Hp : pay =
               (Normal tt,
                PaymentPage.mk (OrderContext.mk (Some t) [] (Some order) methods (Some m))
                  (Some (Order.id order)) false None
                  (match PaymentMethodInfo.type m with transfer => true | _ => false end)
                  (Some (Payment.id p)) [] false,
                CallInitiatePayment
                  (InitiatePaymentRequest.mk (Order.id order) (PaymentMethodInfo.type m))
                :: match PaymentMethodInfo.type m with
                   | transfer => []
                   | _ => [Navigate (lit "/order-status") (Some (Order.id order))]
                   end)).
  { subst pay page ctx1. rewrite Hc.
    unfold PaymentPage.click_initiate, PaymentPage.handleInitiatePayment,
      PaymentPage.orderId, final. simpl. rewrite Hid. simpl. rewrite Hid. simpl.
    unfold PaymentPage.setLoading, PaymentPage.setError, PaymentPage.setPaymentId,
      PaymentPage.setPaymentInitiated. run_handler.
    rewrite Hpay. simpl.
    destruct (PaymentMethodInfo.type m); reflexivity. }
  split; [|split; [|split]].
  - rewrite Hc. unfold events. simpl. do 4 right. now left.
  - subst page ctx1. rewrite Hc. unfold PaymentPage.orderId, final. simpl.
    now rewrite Hid.
  - rewrite Hp. unfold events. simpl.
    destruct (PaymentMethodInfo.type m); reflexivity.
  - rewrite Hp. unfold events, final. simpl.
    destruct (PaymentMethodInfo.type m); simpl; try reflexivity.
    + split; [right; now left|].
      unfold OrderStatusPage.mount, OrderStatusPage.effect, OrderStatusPage.orderId,
        OrderStatusPage.calls. simpl. rewrite Hid. simpl.
      unfold OrderStatusPage.orderId. simpl. rewrite Hid. reflexivity.
    + split; [right; now left|].
      unfold OrderStatusPage.mount, OrderStatusPage.effect, OrderStatusPage.orderId,
        OrderStatusPage.calls. simpl. rewrite Hid. simpl.
      unfold OrderStatusPage.orderId. simpl. rewrite Hid. reflexivity.
Qed.

Lemma order_id_flows_through_pages_witness :
  api_calls
    (events
       (PaymentPage.click_initiate Sample.api_up
          (PaymentPageEffects.setSelectedPaymentMethod Sample.method_cash
             (PaymentPage.initial
                (CartPage.ctx
                   (final (CartPage.click_checkout Sample.api_up
                             (Sample.cart_page (Some Sample.table1) Sample.cart2))))
                (Some (lit "o1"))))))
  = [CallInitiatePayment (InitiatePaymentRequest.mk (lit "o1") cash)].
Proof.
  apply (order_id_flows_through_pages Sample.api_up Sample.api_up
           (Sample.cart_page (Some Sample.table1) Sample.cart2) Sample.table1
           (Sample.order_with pending) Sample.method_cash Sample.payment1).
  - vm_compute. discriminate.
  - reflexivity.
  - reflexivity.
  - reflexivity.
  - reflexivity.
Defined.

End Flow.
